(** * Verification of [utils/chat_formatting.py]

    A shallow embedding of the text helpers [escape], [pagify] and
    [bordered], with the Python string primitives they rely on
    ([str.replace], [str.count], [str.rfind], slicing, [str.strip],
    [str.join], [str.format]), followed by the properties of the
    paginator and of the bordered layout.

    A Python [str] is a sequence of Unicode code points; it is modelled
    as a list of code points, so that [len] counts what Python counts
    (U+200B is one character).  Python integers are [Z]. *)

From Stdlib Require Import ZArith NArith Ascii String Lia DecimalString.
From stdpp Require Import base list.

Local Open Scope Z_scope.

(** ** Python strings *)

Module Py.

Abbreviation char := N (only parsing).
Abbreviation str := (list N) (only parsing).

Definition len {A} (s : list A) : Z := Z.of_nat (length s).

(** A string literal of the source, read as code points (ASCII only). *)
Definition lit (s : string) : str :=
  List.map N_of_ascii (list_ascii_of_string s).

(** [s.startswith(sub)]. *)
Fixpoint startswith (s sub : str) : bool :=
  match sub, s with
  | [], _ => true
  | _ :: _, [] => false
  | a :: sub', b :: s' => N.eqb a b && startswith s' sub'
  end.

(** Slicing.  A negative index counts from the end; indices are clamped
    to the string, as for [s[i:j]]. *)
Definition clamp (i n : Z) : Z :=
  if i <? 0 then Z.max 0 (i + n) else Z.min i n.

Definition slice_to {A} (s : list A) (j : Z) : list A :=
  take (Z.to_nat (clamp j (len s))) s.

Definition slice_from {A} (s : list A) (i : Z) : list A :=
  drop (Z.to_nat (clamp i (len s))) s.

Definition slice {A} (s : list A) (i j : Z) : list A :=
  drop (Z.to_nat (clamp i (len s))) (slice_to s j).

(** The index adjustment of [find], [rfind] and [count] (CPython's
    ADJUST_INDICES): [end] is clamped to the length, negative indices
    count from the end, [start] is not clamped from above. *)
Definition adjust_end (e n : Z) : Z :=
  if n <? e then n else if e <? 0 then Z.max 0 (e + n) else e.

Definition adjust_start (st n : Z) : Z :=
  if st <? 0 then Z.max 0 (st + n) else st.

(** [s.replace(old, new)] for a non-empty [old]: a left-to-right scan that
    replaces each occurrence and resumes after it.  [skip] counts the
    characters of a matched occurrence still to be passed over. *)
Fixpoint replace_scan (old new : str) (skip : nat) (s : str) : str :=
  match s with
  | [] => []
  | c :: s' =>
      match skip with
      | S k => replace_scan old new k s'
      | O =>
          if startswith s old
          then new ++ replace_scan old new (length old - 1) s'
          else c :: replace_scan old new 0 s'
      end
  end.

(** With an empty [old], Python inserts [new] before every character and
    at the end. *)
Fixpoint intersperse_all (new s : str) : str :=
  match s with
  | [] => new
  | c :: s' => new ++ c :: intersperse_all new s'
  end.

Definition replace (s old new : str) : str :=
  match old with
  | [] => intersperse_all new s
  | _ :: _ => replace_scan old new 0 s
  end.

(** Number of non-overlapping occurrences of a non-empty [sub], scanning
    from the left. *)
Fixpoint count_scan (sub : str) (skip : nat) (s : str) : Z :=
  match s with
  | [] => 0
  | c :: s' =>
      match skip with
      | S k => count_scan sub k s'
      | O =>
          if startswith s sub
          then 1 + count_scan sub (length sub - 1) s'
          else count_scan sub 0 s'
      end
  end.

(** [s.count(sub, start, end)]. *)
Definition count (s sub : str) (start end_ : Z) : Z :=
  let n := len s in
  let e := adjust_end end_ n in
  let st := adjust_start start n in
  if e - st <? len sub then 0
  else
    match sub with
    | [] => e - st + 1
    | _ :: _ =>
        count_scan sub 0 (take (Z.to_nat (e - st)) (drop (Z.to_nat st) s))
    end.

(** [s.rfind(sub, start, end)]: the highest index [i] with
    [start <= i], [i + len(sub) <= end] and [s[i:i+len(sub)] == sub],
    or [-1].  [rfind_down] tries the candidates [lo + k], ..., [lo]. *)
Definition match_at (s sub : str) (i : Z) : bool :=
  startswith (drop (Z.to_nat i) s) sub.

Fixpoint rfind_down (s sub : str) (lo : Z) (k : nat) : Z :=
  match k with
  | O => if match_at s sub lo then lo else -1
  | S k' =>
      if match_at s sub (lo + Z.of_nat k) then lo + Z.of_nat k
      else rfind_down s sub lo k'
  end.

Definition rfind (s sub : str) (start end_ : Z) : Z :=
  let n := len s in
  let e := adjust_end end_ n in
  let st := adjust_start start n in
  if e - st <? len sub then -1
  else rfind_down s sub st (Z.to_nat (e - st - len sub)).

(** [sub in s]. *)
Fixpoint contains (s sub : str) : bool :=
  startswith s sub ||
  match s with
  | [] => false
  | _ :: s' => contains s' sub
  end.

(** The characters [str.strip()] removes: those with [str.isspace()]
    true (CPython's [_PyUnicode_IsWhitespace]).  U+200B is not one of
    them. *)
Definition isspace (c : char) : bool :=
  ((9 <=? c) && (c <=? 13) || (28 <=? c) && (c <=? 32)
   || (c =? 133) || (c =? 160) || (c =? 5760)
   || (8192 <=? c) && (c <=? 8202)
   || (c =? 8232) || (c =? 8233) || (c =? 8239) || (c =? 8287)
   || (c =? 12288))%N.

Fixpoint lstrip (s : str) : str :=
  match s with
  | [] => []
  | c :: s' => if isspace c then lstrip s' else s
  end.

Definition rstrip (s : str) : str := rev (lstrip (rev s)).

Definition strip (s : str) : str := rstrip (lstrip s).

(** [sep.join(parts)]. *)
Fixpoint join (sep : str) (parts : list str) : str :=
  match parts with
  | [] => []
  | [p] => p
  | p :: ps => p ++ sep ++ join sep ps
  end.

(** [s * n]: a non-positive count gives the empty string. *)
Definition mul (s : str) (n : Z) : str :=
  concat (replicate (Z.to_nat n) s).

(** [s.split(sep)] for a one-character separator. *)
Fixpoint split (sep : char) (s : str) : list str :=
  match s with
  | [] => [[]]
  | c :: s' =>
      if N.eqb c sep then [] :: split sep s'
      else
        match split sep s' with
        | [] => [[c]]
        | p :: ps => (c :: p) :: ps
        end
  end.

(** [max(xs)] raises [ValueError] on an empty sequence: [None]. *)
Definition max (xs : list Z) : option Z :=
  match xs with
  | [] => None
  | x :: xs' => Some (fold_left Z.max xs' x)
  end.

(** [next((x for x in xs if x > 0), default)]. *)
Fixpoint next_positive (xs : list Z) (default : Z) : Z :=
  match xs with
  | [] => default
  | x :: xs' => if 0 <? x then x else next_positive xs' default
  end.

(** Exceptions the modelled code can raise.  [LookupError] is the common
    base class of [KeyError] and [IndexError].  [Unsupported] is not a
    Python exception: it marks a replacement field (one with a
    conversion, a format specification, an attribute or an index) that
    the model of [str.format] does not interpret. *)
Inductive exn := ValueError | LookupError | Unsupported.

Inductive result (A : Type) :=
  | Ok (a : A)
  | Raise (e : exn).
Arguments Ok {A} a.
Arguments Raise {A} e.

Definition bind {A B} (r : result A) (k : A -> result B) : result B :=
  match r with
  | Ok a => k a
  | Raise e => Raise e
  end.

Definition fmap {A B} (f : A -> B) (r : result A) : result B :=
  bind r (fun a => Ok (f a)).

(** A [dict] with string keys, read only. *)
Abbreviation dict := (list (list N * list N)) (only parsing).

Fixpoint dict_get (d : dict) (key : str) : option str :=
  match d with
  | [] => None
  | (k, v) :: d' => if decide (k = key) then Some v else dict_get d' key
  end.

Definition lbrace : char := 123%N.
Definition rbrace : char := 125%N.

Definition isdigit (c : char) : bool := ((48 <=? c) && (c <=? 57))%N.

(** The characters that start a conversion, a format specification, an
    attribute or an index inside a replacement field. *)
Definition field_special (c : char) : bool :=
  ((c =? 33) || (c =? 58) || (c =? 46) || (c =? 91))%N.

(** The number a name made of ASCII digits denotes. *)
Definition decimal (name : str) : Z :=
  fold_left (fun acc c => acc * 10 + (Z.of_N c - 48)) name 0.

(** [sys.maxsize] of a 64-bit build. *)
Definition maxsize : Z := 2 ^ 63 - 1.

(** The value of the replacement field [name] in a call of [s.format]
    with keyword arguments [kwargs] and no positional argument: an empty
    or numeric name indexes the empty argument tuple ([IndexError]),
    unless the number is above [sys.maxsize] ([ValueError]); any other
    name is a keyword.  Decimal digits outside ASCII form a number too:
    a name long enough to exceed [sys.maxsize] that has a character
    outside ASCII is left uninterpreted. *)
Definition field_value (kwargs : dict) (name : str) : result str :=
  if forallb isdigit name then
    if maxsize <? decimal name then Raise ValueError else Raise LookupError
  else if (19 <=? length name)%nat && existsb (fun c => 127 <? c)%N name
  then Raise Unsupported
  else
    match dict_get kwargs name with
    | Some v => Ok v
    | None => Raise LookupError
    end.

(** [s.format] with keyword arguments [kwargs] where all values are strings.  [field] is
    [None] in literal text and holds the characters read so far
    (last first) inside a replacement field; an opening brace in a field
    name is a [ValueError]. *)
Fixpoint format_scan (kwargs : dict) (field : option str) (s : str)
    : result str :=
  match s with
  | [] =>
      match field with
      | None => Ok []
      | Some _ => Raise ValueError
      end
  | c :: s' =>
      match field with
      | None =>
          if N.eqb c lbrace then
            match s' with
            | [] => Raise ValueError
            | c2 :: s'' =>
                if N.eqb c2 lbrace
                then fmap (cons lbrace) (format_scan kwargs None s'')
                else format_scan kwargs (Some []) s'
            end
          else if N.eqb c rbrace then
            match s' with
            | [] => Raise ValueError
            | c2 :: s'' =>
                if N.eqb c2 rbrace
                then fmap (cons rbrace) (format_scan kwargs None s'')
                else Raise ValueError
            end
          else fmap (cons c) (format_scan kwargs None s')
      | Some name =>
          if N.eqb c rbrace then
            bind (field_value kwargs (rev name))
                 (fun v => fmap (app v) (format_scan kwargs None s'))
          else if N.eqb c lbrace then Raise ValueError
          else if field_special c then Raise Unsupported
          else format_scan kwargs (Some (c :: name)) s'
      end
  end.

Definition format (s : str) (kwargs : dict) : result str :=
  format_scan kwargs None s.

(** [itertools.zip_longest] of the columns: one tuple per row up to the
    tallest column, [None] where a column has no such row. *)
Definition zip_longest {A} (columns : list (list A)) : list (list (option A)) :=
  List.map (fun r => List.map (fun column => column !! r) columns)
           (seq 0 (foldr Nat.max 0%nat (List.map length columns))).

(** [str(n)] for an [int]: decimal digits, with a sign when negative. *)
Definition str_int (n : Z) : str :=
  lit (NilZero.string_of_int (Z.to_int n)).

(** The line boundaries of [str.splitlines]: "\n", "\r", "\v", "\f",
    U+001C to U+001E, U+0085, U+2028 and U+2029; "\r\n" counts as one. *)
Definition linebreak (c : char) : bool :=
  ((10 <=? c) && (c <=? 13) || (28 <=? c) && (c <=? 30)
   || (c =? 133) || (c =? 8232) || (c =? 8233))%N.

(** [s.splitlines(True)]: the lines with their line boundaries kept. *)
Fixpoint splitlines (s : str) : list str :=
  match s with
  | [] => []
  | c :: s' =>
      if N.eqb c 13 then
        match s' with
        | [] => [[c]]
        | c2 :: s'' =>
            if N.eqb c2 10 then [c; c2] :: splitlines s''
            else [c] :: splitlines s'
        end
      else if linebreak c then [c] :: splitlines s'
      else
        match splitlines s' with
        | [] => [[c]]
        | line :: lines => (c :: line) :: lines
        end
  end.

(** [textwrap.indent(text, prefix, predicate)]. *)
Definition indent (text prefix : str) (predicate : str -> bool) : str :=
  concat (List.map (fun line => if predicate line then prefix ++ line
                                else line)
                   (splitlines text)).

End Py.

(** ** The module under verification *)

(** Code points and literals of the source. *)
Definition ZWSP : Py.char := 8203%N.                      (* U+200B *)
Definition NL : Py.char := 10%N.                          (* "\n" *)
Definition at_everyone : Py.str := Eval cbv in Py.lit "@everyone".
Definition at_here : Py.str := Eval cbv in Py.lit "@here".
Definition at_zw_everyone : Py.str :=
  Eval cbv in (64%N :: 8203%N :: Py.lit "everyone").
Definition at_zw_here : Py.str :=
  Eval cbv in (64%N :: 8203%N :: Py.lit "here").

(** How a run of the [pagify] generator ends: it is exhausted (the
    function body returned), it raised, or the loop was still running
    when the fuel of the model ran out. *)
Inductive outcome :=
  | Exhausted
  | Raised (e : Py.exn)
  | Running.

Section ChatFormatting.

(** [discord.utils.escape_markdown], an external primitive. *)
Variable escape_markdown : Py.str -> Py.str.

(** [escape(text, *, mass_mentions=False, formatting=False)]. *)
Definition escape (text : Py.str) (mass_mentions formatting : bool) : Py.str :=
  let text :=
    if mass_mentions
    then Py.replace (Py.replace text at_everyone at_zw_everyone)
                    at_here at_zw_here
    else text in
  let text := if formatting then escape_markdown text else text in
  text.

(** Lines 262-266: the working limit of one iteration. *)
Definition this_page_len (in_text : Py.str) (escape_mass_mentions : bool)
    (page_length : Z) : Z :=
  if escape_mass_mentions
  then page_length - (Py.count in_text at_here 0 page_length
                      + Py.count in_text at_everyone 0 page_length)
  else page_length.

(** Lines 267-272: the break point of one iteration; [None] when
    [max] raises [ValueError]. *)
Definition closest_delim (in_text : Py.str) (delims : list Py.str)
    (priority : bool) (this_page_len : Z) : option Z :=
  let _closest_delim :=
    List.map (fun d => Py.rfind in_text d 1 this_page_len) delims in
  let closest_delim :=
    if priority then Some (Py.next_positive _closest_delim (-1))
    else Py.max _closest_delim in
  match closest_delim with
  | None => None
  | Some closest_delim =>
      Some (if closest_delim =? -1 then this_page_len else closest_delim)
  end.

(** [len(s.strip()) > 0]. *)
Definition nonblank (s : Py.str) : bool := 0 <? Py.len (Py.strip s).

(** The body of [pagify] after [page_length -= shorten_by].  One unit of
    fuel is spent on each evaluation of the loop condition. *)
Fixpoint pagify_loop (fuel : nat) (in_text : Py.str) (delims : list Py.str)
    (priority escape_mass_mentions : bool) (page_length : Z)
    : list Py.str * outcome :=
  match fuel with
  | O => ([], Running)
  | S fuel' =>
      if page_length <? Py.len in_text then
        let this_page_len :=
          this_page_len in_text escape_mass_mentions page_length in
        match closest_delim in_text delims priority this_page_len with
        | None => ([], Raised Py.ValueError)
        | Some closest_delim =>
            let to_send :=
              if escape_mass_mentions
              then escape (Py.slice_to in_text closest_delim) true false
              else Py.slice_to in_text closest_delim in
            let '(pages, o) :=
              pagify_loop fuel' (Py.slice_from in_text closest_delim)
                delims priority escape_mass_mentions page_length in
            (if nonblank to_send then to_send :: pages else pages, o)
        end
      else
        (if nonblank in_text
         then [if escape_mass_mentions then escape in_text true false
               else in_text]
         else [],
         Exhausted)
  end.

(** [pagify(text, delims, *, priority, escape_mass_mentions, shorten_by,
    page_length)]: the pages yielded, in order, and how the run ends. *)
Definition pagify (fuel : nat) (text : Py.str) (delims : list Py.str)
    (priority escape_mass_mentions : bool) (shorten_by page_length : Z)
    : list Py.str * outcome :=
  pagify_loop fuel text delims priority escape_mass_mentions
    (page_length - shorten_by).

(** The defaults of the signature. *)
Definition default_delims : list Py.str := [[NL]].

Definition pagify_default (fuel : nat) (text : Py.str) : list Py.str * outcome :=
  pagify fuel text default_delims false true 8 2000.

End ChatFormatting.


(** *** [bordered] *)

(** The [borders] dictionary. *)
Definition borders (ascii_border : bool) : Py.dict :=
  [ (Py.lit "TL", [if ascii_border then 43 else 9484]);
    (Py.lit "TR", [if ascii_border then 43 else 9488]);
    (Py.lit "BL", [if ascii_border then 43 else 9492]);
    (Py.lit "BR", [if ascii_border then 43 else 9496]);
    (Py.lit "HZ", [if ascii_border then 45 else 9472]);
    (Py.lit "VT", [if ascii_border then 124 else 9474]) ]%N.

Definition SPACE : Py.char := 32%N.

(** [sep = " " * 4]. *)
Definition sep : Py.str := Py.mul [SPACE] 4.

(** The four kinds of cell the function writes, before [format]. *)
Definition cell_top (width : Z) : Py.str :=
  Py.lit "{TL}" ++ Py.mul (Py.lit "{HZ}") width ++ Py.lit "{TR}".

Definition cell_bottom (width : Z) : Py.str :=
  Py.lit "{BL}" ++ Py.mul (Py.lit "{HZ}") width ++ Py.lit "{BR}".

Definition cell_blank (width : Z) : Py.str := Py.mul [SPACE] (width + 2).

Definition cell_text (width : Z) (column : Py.str) : Py.str :=
  Py.lit "{VT}" ++ (column ++ Py.mul [SPACE] (width - Py.len column))
    ++ Py.lit "{VT}".

(** [widths]: [max] raises [ValueError] on a column without lines. *)
Fixpoint widths (columns : list (list Py.str)) : Py.result (list Z) :=
  match columns with
  | [] => Py.Ok []
  | column :: columns' =>
      match Py.max (List.map Py.len column) with
      | None => Py.Raise Py.ValueError
      | Some m => Py.fmap (cons (m + 9)) (widths columns')
      end
  end.

(** The inner loop over [enumerate(line)]: the cells of one row and the
    updated [colsdone].  An index out of range raises [IndexError]. *)
Fixpoint row_loop (widths : list Z) (colidx : nat)
    (line : list (option Py.str)) (colsdone : list bool)
    : Py.result (list Py.str * list bool) :=
  match line with
  | [] => Py.Ok ([], colsdone)
  | column :: line' =>
      match widths !! colidx, colsdone !! colidx with
      | Some width, Some done =>
          let '(cell, colsdone) :=
            match column with
            | None =>
                if negb done
                then (cell_bottom width, <[colidx := true]> colsdone)
                else (cell_blank width, colsdone)
            | Some column => (cell_text width column, colsdone)
            end in
          Py.bind (row_loop widths (S colidx) line' colsdone)
                  (fun '(row, colsdone) => Py.Ok (cell :: row, colsdone))
      | _, _ => Py.Raise Py.LookupError
      end
  end.

(** The outer loop over [zip_longest] of the columns. *)
Fixpoint lines_loop (widths : list Z) (lines : list (list (option Py.str)))
    (colsdone : list bool) : Py.result (list (list Py.str) * list bool) :=
  match lines with
  | [] => Py.Ok ([], colsdone)
  | line :: lines' =>
      Py.bind (row_loop widths 0 line colsdone) (fun '(row, colsdone) =>
      Py.bind (lines_loop widths lines' colsdone) (fun '(rows, colsdone) =>
      Py.Ok (row :: rows, colsdone)))
  end.

Definition final_row (widths : list Z) (colsdone : list bool) : list Py.str :=
  List.map (fun '(width, done) =>
              if negb done then cell_bottom width else cell_blank width)
           (zip widths colsdone).

(** The rows of cells joined into [lines]: the top border, one row per
    tuple of [zip_longest], and the trailing row. *)
Definition bordered_rows (columns : list (list Py.str))
    : Py.result (list (list Py.str)) :=
  Py.bind (widths columns) (fun widths =>
  let colsdone := replicate (length columns) false in
  let top := List.map cell_top widths in
  Py.bind (lines_loop widths (Py.zip_longest columns) colsdone)
          (fun '(rows, colsdone) =>
  Py.Ok (top :: rows ++ [final_row widths colsdone]))).

(** [bordered] of the columns, with [ascii_border]. *)
Definition bordered (columns : list (list Py.str)) (ascii_border : bool)
    : Py.result Py.str :=
  Py.bind (bordered_rows columns) (fun rows =>
  let lines := List.map (Py.join sep) rows in
  Py.format (Py.join [NL] lines) (borders ascii_border)).

(** *** [quote] *)

(** [quote(text)]: every line is indented with "> ". *)
Definition quote (text : Py.str) : Py.str :=
  Py.indent text (Py.lit "> ") (fun l => true).

(** *** [humanize_timedelta] *)

(** A row of the [periods] table: singular name, plural name, seconds. *)
Definition period_name (p : Py.str * Py.str * Z) : Py.str := p.1.1.
Definition plural_period_name (p : Py.str * Py.str * Z) : Py.str := p.1.2.
Definition period_seconds (p : Py.str * Py.str * Z) : Z := p.2.

Definition periods : list (Py.str * Py.str * Z) :=
  [ (Py.lit "year", Py.lit "years", 60 * 60 * 24 * 365);
    (Py.lit "month", Py.lit "months", 60 * 60 * 24 * 30);
    (Py.lit "day", Py.lit "days", 60 * 60 * 24);
    (Py.lit "hour", Py.lit "hours", 60 * 60);
    (Py.lit "minute", Py.lit "minutes", 60);
    (Py.lit "second", Py.lit "seconds", 1) ].

(** The loop over [periods].  For every string the source appends, the
    model keeps the value and the period it is formatted from; the
    second component is [seconds] when the loop ends.  [divmod] on
    integers is floor division. *)
Fixpoint periods_loop (periods : list (Py.str * Py.str * Z)) (seconds : Z)
    : list (Z * (Py.str * Py.str * Z)) * Z :=
  match periods with
  | [] => ([], seconds)
  | p :: periods' =>
      if period_seconds p <=? seconds then
        let period_value := seconds / period_seconds p in
        let seconds := seconds mod period_seconds p in
        if period_value =? 0 then periods_loop periods' seconds
        else
          let '(strings, seconds) := periods_loop periods' seconds in
          ((period_value, p) :: strings, seconds)
      else periods_loop periods' seconds
  end.

(** The f-string appended for one period: the value, a space, and the
    plural name when the value is above 1. *)
Definition period_string (part : Z * (Py.str * Py.str * Z)) : Py.str :=
  let '(period_value, p) := part in
  let unit := if 1 <? period_value then plural_period_name p
              else period_name p in
  Py.str_int period_value ++ Py.lit " " ++ unit.

(** [humanize_timedelta] with its keyword arguments [timedelta] and
    [seconds], for an integer [seconds].  [timedelta], when given, stands for
    [int(timedelta.total_seconds())], whose floating-point computation
    is not modelled. *)
Definition humanize_timedelta (timedelta seconds : option Z)
    : Py.result Py.str :=
  let obj :=
    match seconds with
    | Some seconds => Some seconds
    | None => timedelta
    end in
  match obj with
  | None => Py.Raise Py.ValueError
  | Some seconds =>
      Py.Ok (Py.join (Py.lit ", ")
               (List.map period_string (periods_loop periods seconds).1))
  end.

(** An instance of the external primitive, for closed statements; with
    [formatting=False] it is never called. *)
Definition md0 : Py.str -> Py.str := fun t => t.

(** ** Vocabulary of the statements *)

(** Blank strings: empty or made of whitespace only, so that [strip]
    leaves nothing. *)
Definition blank (s : Py.str) : bool := forallb Py.isspace s.

(** [d] occurs in [s] at index [i]. *)
Definition occurs_at (s d : Py.str) (i : Z) : Prop :=
  0 <= i /\ i + Py.len d <= Py.len s /\
  take (length d) (drop (Z.to_nat i) s) = d.

(** An occurrence of the delimiter [d] that the break-point search
    considers: it starts at index 1 or later (position 0 is excluded)
    and lies wholly before the working limit. *)
Definition in_range (in_text d : Py.str) (limit i : Z) : Prop :=
  1 <= i /\ i + Py.len d <= limit /\ occurs_at in_text d i.

Definition last_in_range (in_text d : Py.str) (limit i : Z) : Prop :=
  in_range in_text d limit i /\
  forall j, in_range in_text d limit j -> j <= i.

(** The slices the loop of [pagify] takes from the text: on every
    iteration [in_text[:closest_delim]], the break point being the one
    the source computes, and at the end what remains. *)
Inductive cut_into (delims : list Py.str) (priority escape_mass_mentions : bool)
    (budget : Z) : Py.str -> list Py.str -> Prop :=
  | cut_last in_text :
      Py.len in_text <= budget ->
      cut_into delims priority escape_mass_mentions budget in_text [in_text]
  | cut_step in_text cd slices :
      budget < Py.len in_text ->
      closest_delim in_text delims priority
        (this_page_len in_text escape_mass_mentions budget) = Some cd ->
      cut_into delims priority escape_mass_mentions budget
        (Py.slice_from in_text cd) slices ->
      cut_into delims priority escape_mass_mentions budget in_text
        (Py.slice_to in_text cd :: slices).

(** What [pagify] does to a slice before yielding it. *)
Definition page_of (escape_markdown : Py.str -> Py.str)
    (escape_mass_mentions : bool) (segment : Py.str) : Py.str :=
  if escape_mass_mentions then escape escape_markdown segment true false
  else segment.

(** A character that [format] copies and that does not end a row. *)
Definition nonbrace (c : Py.char) : bool :=
  negb (N.eqb c Py.lbrace) && negb (N.eqb c Py.rbrace).

Definition plain_char (c : Py.char) : bool :=
  nonbrace c && negb (N.eqb c NL).

(** A line of a column without braces and without a line break. *)
Definition plain_line (s : Py.str) : bool := forallb plain_char s.

Definition no_newline (s : Py.str) : bool :=
  forallb (fun c => negb (N.eqb c NL)) s.

(** The width of a row: every column takes its inner width plus 2, and
    consecutive columns are 4 apart. *)
Definition row_width (widths : list Z) : Z :=
  fold_right (fun width acc => width + 2 + acc) 0 widths
  + 4 * (Py.len widths - 1).

(** The height of the tallest column. *)
Definition max_height (columns : list (list Py.str)) : nat :=
  foldr Nat.max 0%nat (List.map length columns).

(** [format] turns the template [t] into [o], whatever follows. *)
Definition formats (kwargs : Py.dict) (t o : Py.str) : Prop :=
  forall rest,
    Py.format_scan kwargs None (t ++ rest) =
    Py.fmap (app o) (Py.format_scan kwargs None rest).

(** A cell that is printed on [width + 2] characters of one row. *)
Definition cell_ok (ascii_border : bool) (width : Z) (cell : Py.str) : Prop :=
  exists o, formats (borders ascii_border) cell o /\
            Py.len o = width + 2 /\ no_newline o = true.

(** The indices of the rows whose cell in column [c] satisfies [kind]. *)
Definition rows_where (kind : Py.str -> bool) (rows : list (list Py.str))
    (c : nat) : list nat :=
  List.filter (fun r => match rows !! r with
                        | Some row => match row !! c with
                                      | Some cell => kind cell
                                      | None => false
                                      end
                        | None => false
                        end)
              (seq 0 (length rows)).

Definition is_bottom (cell : Py.str) : bool := Py.startswith cell (Py.lit "{BL}").
Definition is_text (cell : Py.str) : bool := Py.startswith cell (Py.lit "{VT}").

(** The columns of the two-column example. *)
Definition two_columns : list (list Py.str) :=
  [[Py.lit "a"; Py.lit "bb"]; [Py.lit "ccc"]].

(** What [widths] guarantees for a column and its width. *)
Definition fits (column : list Py.str) (width : Z) : Prop :=
  0 <= width /\ forall line, In line column -> Py.len line + 9 <= width.

(** What a row of [zip_longest] offers to a column of width [width]. *)
Definition offer (width : Z) (column : option Py.str) : Prop :=
  0 <= width /\
  match column with
  | Some line => plain_line line = true /\ Py.len line <= width
  | None => True
  end.

(** A row as printed: [width] characters, no line break. *)
Definition printed (kwargs : Py.dict) (width : Z) (t o : Py.str) : Prop :=
  formats kwargs t o /\ Py.len o = width /\ no_newline o = true.

(** The time a list of values and periods stands for. *)
Definition parts_seconds (parts : list (Z * (Py.str * Py.str * Z))) : Z :=
  fold_right (fun part acc => part.1 * period_seconds part.2 + acc) 0 parts.

(** Each period of a table with the seconds of the period before it,
    [first] for the first one. *)
Fixpoint caps (first : Z) (periods : list (Py.str * Py.str * Z))
    : list ((Py.str * Py.str * Z) * Z) :=
  match periods with
  | [] => []
  | p :: periods' => (p, first) :: caps (period_seconds p) periods'
  end.

(** The cell [bordered] writes for a column of width [width] on row [r]
    below the top border: a line of the column, the bottom border just
    after the last line, nothing further down. *)
Definition cell_at (width : Z) (column : list Py.str) (r : nat) : Py.str :=
  match column !! r with
  | Some line => cell_text width line
  | None => if (length column =? r)%nat then cell_bottom width
            else cell_blank width
  end.

(** The glyph of a key of [borders]. *)
Definition border_glyph (ascii_border : bool) (key : string) : Py.char :=
  match Py.dict_get (borders ascii_border) (Py.lit key) with
  | Some [g] => g
  | _ => 0%N
  end.

(** The cells as printed. *)
Definition show_top (ascii_border : bool) (width : Z) : Py.str :=
  [border_glyph ascii_border "TL"]
    ++ Py.mul [border_glyph ascii_border "HZ"] width
    ++ [border_glyph ascii_border "TR"].

Definition show_bottom (ascii_border : bool) (width : Z) : Py.str :=
  [border_glyph ascii_border "BL"]
    ++ Py.mul [border_glyph ascii_border "HZ"] width
    ++ [border_glyph ascii_border "BR"].

Definition show_text (ascii_border : bool) (width : Z) (line : Py.str)
    : Py.str :=
  [border_glyph ascii_border "VT"]
    ++ (line ++ Py.mul [SPACE] (width - Py.len line))
    ++ [border_glyph ascii_border "VT"].

Definition show_at (ascii_border : bool) (width : Z) (column : list Py.str)
    (r : nat) : Py.str :=
  match column !! r with
  | Some line => show_text ascii_border width line
  | None => if (length column =? r)%nat then show_bottom ascii_border width
            else cell_blank width
  end.

(** Concrete inputs used in the examples. *)


(** 1990 letters followed by "@everyone": the default budget ends
    between the "e" and the "v". *)
Definition mention_across_cut : Py.str :=
  replicate 1990 97%N ++ at_everyone.

(** Nine "@here" followed by 1947 letters: exactly 1992 characters. *)
Definition nine_mentions : Py.str :=
  concat (replicate 9 at_here) ++ replicate 1947 97%N.

(** ** Facts about the string primitives *)

Lemma len_nonneg {A} (s : list A) : 0 <= Py.len s.
Proof. unfold Py.len. lia. Qed.

Lemma len_app {A} (s t : list A) : Py.len (s ++ t) = Py.len s + Py.len t.
Proof. unfold Py.len. rewrite length_app. lia. Qed.

Lemma len_cons {A} (c : A) (s : list A) : Py.len (c :: s) = 1 + Py.len s.
Proof. unfold Py.len. simpl. lia. Qed.

Lemma startswith_nil s : Py.startswith s [] = true.
Proof. destruct s; reflexivity. Qed.

Lemma startswith_spec s sub :
  Py.startswith s sub = true <-> take (length sub) s = sub.
Proof.
  revert s. induction sub as [|a sub IH]; intros [|b s]; simpl; try easy.
  rewrite andb_true_iff, N.eqb_eq, IH. split.
  - intros [-> ->]. reflexivity.
  - intros H. injection H as -> H. auto.
Qed.

Lemma startswith_app s sub : Py.startswith (sub ++ s) sub = true.
Proof.
  apply startswith_spec. rewrite take_app_length. reflexivity.
Qed.

Lemma startswith_length s sub :
  Py.startswith s sub = true -> (length sub <= length s)%nat.
Proof.
  intros H%startswith_spec. rewrite <- H at 1. rewrite length_take. lia.
Qed.

Section ScanFacts.

Variables old new : Py.str.

Lemma replace_scan_skip k s :
  Py.replace_scan old new k s = Py.replace_scan old new 0 (drop k s).
Proof.
  revert k. induction s as [|c s IH]; intros [|k]; simpl; try reflexivity.
  apply IH.
Qed.

Lemma replace_scan_cons c s :
  Py.replace_scan old new 0 (c :: s) =
  if Py.startswith (c :: s) old
  then new ++ Py.replace_scan old new 0 (drop (length old - 1) s)
  else c :: Py.replace_scan old new 0 s.
Proof.
  cbn [Py.replace_scan]. destruct (Py.startswith (c :: s) old); [|reflexivity].
  now rewrite replace_scan_skip.
Qed.

(** Induction along the scan. *)
Lemma replace_scan_elim (P : Py.str -> Py.str -> Prop) :
  P [] [] ->
  (forall c s,
      Py.startswith (c :: s) old = true ->
      P (drop (length old - 1) s)
        (Py.replace_scan old new 0 (drop (length old - 1) s)) ->
      P (c :: s) (new ++ Py.replace_scan old new 0 (drop (length old - 1) s))) ->
  (forall c s,
      Py.startswith (c :: s) old = false ->
      P s (Py.replace_scan old new 0 s) ->
      P (c :: s) (c :: Py.replace_scan old new 0 s)) ->
  forall s, P s (Py.replace_scan old new 0 s).
Proof.
  intros H0 H1 H2 s. remember (length s) as n eqn:Hn. revert s Hn.
  induction n as [n IH] using lt_wf_ind. intros [|c s] Hn; [exact H0|].
  rewrite replace_scan_cons. simpl in Hn.
  destruct (Py.startswith (c :: s) old) eqn:E.
  - apply H1; [exact E|]. eapply IH; [|reflexivity]. rewrite length_drop. lia.
  - apply H2; [exact E|]. eapply IH; [|reflexivity]. lia.
Qed.

Lemma count_scan_skip k s :
  Py.count_scan old k s = Py.count_scan old 0 (drop k s).
Proof.
  revert k. induction s as [|c s IH]; intros [|k]; simpl; try reflexivity.
  apply IH.
Qed.

Lemma count_scan_cons c s :
  Py.count_scan old 0 (c :: s) =
  if Py.startswith (c :: s) old
  then 1 + Py.count_scan old 0 (drop (length old - 1) s)
  else Py.count_scan old 0 s.
Proof.
  cbn [Py.count_scan]. destruct (Py.startswith (c :: s) old); [|reflexivity].
  now rewrite count_scan_skip.
Qed.

Lemma count_scan_elim (P : Py.str -> Z -> Prop) :
  P [] 0 ->
  (forall c s,
      Py.startswith (c :: s) old = true ->
      P (drop (length old - 1) s)
        (Py.count_scan old 0 (drop (length old - 1) s)) ->
      P (c :: s) (1 + Py.count_scan old 0 (drop (length old - 1) s))) ->
  (forall c s,
      Py.startswith (c :: s) old = false ->
      P s (Py.count_scan old 0 s) ->
      P (c :: s) (Py.count_scan old 0 s)) ->
  forall s, P s (Py.count_scan old 0 s).
Proof.
  intros H0 H1 H2 s. remember (length s) as n eqn:Hn. revert s Hn.
  induction n as [n IH] using lt_wf_ind. intros [|c s] Hn; [exact H0|].
  rewrite count_scan_cons. simpl in Hn.
  destruct (Py.startswith (c :: s) old) eqn:E.
  - apply H1; [exact E|]. eapply IH; [|reflexivity]. rewrite length_drop. lia.
  - apply H2; [exact E|]. eapply IH; [|reflexivity]. lia.
Qed.

(** Occurrences found by the scan do not overlap: they fit in the text. *)
Lemma count_scan_bound s :
  old <> [] ->
  0 <= Py.count_scan old 0 s /\
  Py.count_scan old 0 s * Py.len old <= Py.len s.
Proof.
  intros Hold. apply (count_scan_elim (fun s n => 0 <= n /\ n * Py.len old <= Py.len s)).
  - simpl. pose proof (len_nonneg old). unfold Py.len. simpl. lia.
  - intros c t E [IH0 IH]. apply startswith_length in E. simpl in E.
    unfold Py.len in *. rewrite length_drop in IH. simpl.
    destruct old; [congruence|]. simpl in *. nia.
  - intros c t _ [IH0 IH]. unfold Py.len in *. simpl. lia.
Qed.

(** Text without an occurrence is left alone. *)
Lemma replace_scan_absent s :
  Py.contains s old = false -> Py.replace_scan old new 0 s = s.
Proof.
  induction s as [|c s IH]; [reflexivity|].
  intros H. rewrite replace_scan_cons.
  cbn [Py.contains] in H. apply orb_false_iff in H as [-> H].
  now rewrite IH.
Qed.

End ScanFacts.

Lemma contains_false_drop s x k :
  x <> [] -> Py.contains s x = false -> Py.startswith (drop k s) x = false.
Proof.
  intros Hx. revert k. induction s as [|c s IH]; intros k H.
  - rewrite drop_nil. destruct x; [congruence|reflexivity].
  - cbn [Py.contains] in H. apply orb_false_iff in H as [H0 H].
    destruct k; [exact H0|]. simpl. now apply IH.
Qed.

Lemma lstrip_nil s : Py.lstrip s = [] <-> blank s = true.
Proof.
  induction s as [|c s IH]; simpl; [easy|].
  destruct (Py.isspace c); simpl; [exact IH|easy].
Qed.

Lemma blank_lstrip s : blank (Py.lstrip s) = blank s.
Proof.
  induction s as [|c s IH]; simpl; [reflexivity|].
  destruct (Py.isspace c) eqn:E; simpl; [exact IH|now rewrite E].
Qed.

Lemma blank_rev s : blank (rev s) = blank s.
Proof.
  unfold blank. induction s as [|c s IH]; simpl; [reflexivity|].
  rewrite forallb_app, IH. simpl. rewrite andb_true_r. apply andb_comm.
Qed.

Lemma nonblank_blank s : nonblank s = negb (blank s).
Proof.
  unfold nonblank, Py.strip, Py.rstrip, Py.len. rewrite length_rev.
  destruct (Py.lstrip (rev (Py.lstrip s))) as [|c t] eqn:E.
  - apply lstrip_nil in E. rewrite blank_rev, blank_lstrip in E.
    now rewrite E.
  - assert (blank s <> true) as H.
    { intros H. rewrite <- blank_lstrip, <- blank_rev in H.
      apply lstrip_nil in H. congruence. }
    destruct (blank s); [congruence|]. simpl. apply Z.ltb_lt. lia.
Qed.

(** *** Escaping one kind of mention

    [old] is [a :: w] ("@" and a word), [new] puts [z] after the [a]. *)
Section MentionFacts.

Variables (a z : N) (w : Py.str).
Let old : Py.str := a :: w.
Let new : Py.str := a :: z :: w.

Hypothesis z_not_a : N.eqb a z = false.
Hypothesis a_not_in_w : forallb (fun c => negb (N.eqb a c)) w = true.

Lemma contains_skip (p r x : Py.str) :
  forallb (fun c => negb (N.eqb a c)) p = true ->
  Py.contains (p ++ r) (a :: x) = Py.contains r (a :: x).
Proof.
  induction p as [|c p IH]; [reflexivity|].
  cbn [forallb app]. intros [Hc Hp]%andb_true_iff.
  cbn [Py.contains Py.startswith]. apply negb_true_iff in Hc. rewrite Hc.
  simpl. now apply IH.
Qed.

Lemma startswith_replace_inv (x t : Py.str) :
  forallb (fun c => negb (N.eqb a c)) x = true ->
  Py.startswith (Py.replace_scan old new 0 t) x = true ->
  Py.startswith t x = true.
Proof.
  revert t. induction x as [|x0 x IH]; intros t Hx H.
  - apply startswith_nil.
  - cbn [forallb] in Hx. apply andb_true_iff in Hx as [Hx0 Hx].
    apply negb_true_iff in Hx0.
    destruct t as [|c t]; [discriminate H|].
    rewrite replace_scan_cons in H.
    destruct (Py.startswith (c :: t) old).
    + unfold new in H. cbn [app Py.startswith] in H.
      rewrite N.eqb_sym, Hx0 in H. discriminate H.
    + cbn [Py.startswith] in *. apply andb_true_iff in H as [-> H].
      simpl. now apply IH.
Qed.

(** No occurrence of a pattern [a :: x] is left, or created, by the
    replacement, as long as its occurrences in the text are occurrences
    of [old]. *)
Lemma contains_replace (x s : Py.str) :
  forallb (fun c => negb (N.eqb a c)) x = true ->
  match x with [] => false | x0 :: _ => negb (N.eqb x0 z) end = true ->
  (forall k, Py.startswith (drop k s) (a :: x) = true ->
             Py.startswith (drop k s) old = true) ->
  Py.contains (Py.replace_scan old new 0 s) (a :: x) = false.
Proof.
  intros Hx Hx0.
  apply (replace_scan_elim old new (fun s r =>
    (forall k, Py.startswith (drop k s) (a :: x) = true ->
               Py.startswith (drop k s) old = true) ->
    Py.contains r (a :: x) = false)).
  - reflexivity.
  - intros c t E IH H.
    assert (Py.contains (Py.replace_scan old new 0 (drop (length old - 1) t))
                        (a :: x) = false) as IH'.
    { apply IH. intros k. specialize (H (S (length old - 1 + k))%nat).
      simpl in H. rewrite drop_drop. exact H. }
    unfold new. destruct x as [|x0 x']; [discriminate Hx0|].
    apply negb_true_iff in Hx0.
    cbn [app Py.contains Py.startswith]. rewrite Hx0, z_not_a.
    rewrite andb_false_r. simpl.
    rewrite contains_skip by exact a_not_in_w. exact IH'.
  - intros c t E IH H.
    cbn [Py.contains]. apply orb_false_iff. split.
    + destruct (Py.startswith (c :: Py.replace_scan old new 0 t) (a :: x))
        eqn:F; [|reflexivity].
      cbn [Py.startswith] in F. apply andb_true_iff in F as [Fa F].
      apply startswith_replace_inv in F; [|exact Hx].
      specialize (H 0%nat). simpl in H. rewrite Fa, F in H.
      specialize (H eq_refl). unfold old in E. cbn [Py.startswith] in E.
      congruence.
    + apply IH. intros k. exact (H (S k)).
Qed.

(** Only [z] is inserted. *)
Lemma filter_replace (s : Py.str) :
  List.filter (fun c => negb (N.eqb c z)) (Py.replace_scan old new 0 s) =
  List.filter (fun c => negb (N.eqb c z)) s.
Proof.
  apply (replace_scan_elim old new (fun s r =>
    List.filter (fun c => negb (N.eqb c z)) r =
    List.filter (fun c => negb (N.eqb c z)) s)).
  - reflexivity.
  - intros c t E IH. apply startswith_spec in E.
    assert (c :: t = old ++ drop (length old - 1) t) as Ht.
    { rewrite <- E at 1. unfold old. simpl. f_equal.
      rewrite Nat.sub_0_r. symmetry. apply take_drop. }
    rewrite Ht, !List.filter_app, IH. f_equal.
    unfold new, old. simpl. rewrite N.eqb_refl. reflexivity.
  - intros c t _ IH. simpl. now rewrite IH.
Qed.

(** Blank text stays blank, other text stays non-blank. *)
Lemma blank_replace (s : Py.str) :
  Py.isspace a = false ->
  blank (Py.replace_scan old new 0 s) = blank s.
Proof.
  intros Ha. apply (replace_scan_elim old new (fun s r => blank r = blank s)).
  - reflexivity.
  - intros c t E _. unfold new. simpl. rewrite Ha. simpl.
    unfold old in E. cbn [Py.startswith] in E.
    apply andb_true_iff in E as [E _]. apply N.eqb_eq in E. subst c.
    now rewrite Ha.
  - intros c t _ IH. simpl. now rewrite IH.
Qed.

(** Characters other than [a] are copied and carry no occurrence. *)
Lemma replace_pass (p r : Py.str) :
  forallb (fun c => negb (N.eqb a c)) p = true ->
  Py.replace_scan old new 0 (p ++ r) = p ++ Py.replace_scan old new 0 r.
Proof.
  induction p as [|c p IH]; [reflexivity|].
  cbn [forallb app]. intros [Hc Hp]%andb_true_iff.
  apply negb_true_iff in Hc. rewrite replace_scan_cons.
  unfold old at 1. cbn [Py.startswith]. rewrite Hc. simpl.
  now rewrite IH.
Qed.

Lemma count_pass (x p r : Py.str) :
  forallb (fun c => negb (N.eqb a c)) p = true ->
  Py.count_scan (a :: x) 0 (p ++ r) = Py.count_scan (a :: x) 0 r.
Proof.
  induction p as [|c p IH]; [reflexivity|].
  cbn [forallb app]. intros [Hc Hp]%andb_true_iff.
  apply negb_true_iff in Hc. rewrite count_scan_cons.
  cbn [Py.startswith]. rewrite Hc. simpl. now apply IH.
Qed.

(** A text that starts with [old] is [old] followed by the rest. *)
Lemma startswith_old_split c t :
  Py.startswith (c :: t) old = true ->
  c = a /\ t = w ++ drop (length old - 1) t.
Proof.
  unfold old. cbn [Py.startswith length]. rewrite Nat.sub_succ, Nat.sub_0_r.
  intros [Hc Ht]%andb_true_iff. apply N.eqb_eq in Hc.
  apply startswith_spec in Ht. split; [now symmetry|].
  transitivity (take (length w) t ++ drop (length w) t);
    [symmetry; apply take_drop|now rewrite Ht].
Qed.

(** Every replaced occurrence makes the text one character longer. *)
Lemma len_replace_scan (s : Py.str) :
  Py.len (Py.replace_scan old new 0 s) = Py.len s + Py.count_scan old 0 s.
Proof.
  remember (length s) as n eqn:Hn. revert s Hn.
  induction n as [n IH] using lt_wf_ind. intros [|c t] Hn; [reflexivity|].
  rewrite replace_scan_cons, count_scan_cons. simpl in Hn.
  destruct (Py.startswith (c :: t) old) eqn:E.
  - rewrite len_app, (IH (length (drop (length old - 1) t)));
      [|rewrite length_drop; lia|reflexivity].
    apply startswith_length in E. unfold Py.len, new, old in *.
    rewrite length_drop. simpl in *. lia.
  - rewrite !len_cons, (IH (length t)); [lia|lia|reflexivity].
Qed.

(** The occurrences found in a prefix are found in the whole text. *)
Lemma count_scan_take (s : Py.str) : forall n,
  Py.count_scan old 0 (take n s) <= Py.count_scan old 0 s.
Proof.
  remember (length s) as m eqn:Hm. revert s Hm.
  induction m as [m IH] using lt_wf_ind. intros [|c t] Hm n.
  - rewrite take_nil. reflexivity.
  - destruct n as [|n].
    + simpl take. apply (count_scan_bound old). discriminate.
    + simpl in Hm. cbn [take firstn]. rewrite !count_scan_cons.
      destruct (Py.startswith (c :: take n t) old) eqn:E.
      * assert (Py.startswith (c :: t) old = true) as ->.
        { apply startswith_spec. apply startswith_spec in E.
          pose proof (f_equal length E) as L. rewrite length_take in L.
          change (c :: take n t) with (take (S n) (c :: t)) in E.
          rewrite take_take in E. rewrite <- E at 2. f_equal.
          cbn [length] in L. rewrite length_take in L. lia. }
        rewrite skipn_firstn_comm.
        specialize (IH (length (drop (length old - 1) t))).
        rewrite length_drop in IH.
        specialize (IH ltac:(lia) (drop (length old - 1) t)
                       ltac:(now rewrite length_drop)
                       (n - (length old - 1))%nat).
        lia.
      * specialize (IH (length t) ltac:(lia) t eq_refl n).
        destruct (Py.startswith (c :: t) old) eqn:F; [|exact IH].
        apply startswith_old_split in F as [_ F].
        pose proof (count_pass w w (drop (length old - 1) t) a_not_in_w)
          as Hp.
        rewrite <- F in Hp. fold old in Hp. lia.
Qed.

(** Replacing [old] neither hides nor creates occurrences of another
    pattern [a :: x] that differs from [old] right after the [a]. *)
Lemma count_replace_other (x : Py.str) :
  forallb (fun c => negb (N.eqb a c)) x = true ->
  match x with [] => false | x0 :: _ => negb (N.eqb x0 z) end = true ->
  (forall rest, Py.startswith (w ++ rest) x = false) ->
  forall s,
    Py.count_scan (a :: x) 0 (Py.replace_scan old new 0 s) =
    Py.count_scan (a :: x) 0 s.
Proof.
  intros Hx Hxz Hxw s.
  remember (length s) as n eqn:Hn. revert s Hn.
  induction n as [n IH] using lt_wf_ind. intros [|c t] Hn; [reflexivity|].
  simpl in Hn. rewrite replace_scan_cons.
  destruct (Py.startswith (c :: t) old) eqn:E.
  - destruct (startswith_old_split c t E) as [-> Ht].
    set (rest := drop (length old - 1) t) in *.
    assert (Py.count_scan (a :: x) 0 (Py.replace_scan old new 0 rest)
            = Py.count_scan (a :: x) 0 rest) as IH'.
    { apply (IH (length rest)); [|reflexivity].
      subst rest. rewrite length_drop. lia. }
    pose proof (Hxw rest) as Hs. rewrite <- Ht in Hs.
    pose proof (count_pass x w rest a_not_in_w) as Hp. rewrite <- Ht in Hp.
    rewrite (count_scan_cons (a :: x) a t). cbn [Py.startswith].
    rewrite Hs, andb_false_r, Hp, <- IH'.
    destruct x as [|x0 x']; [discriminate Hxz|].
    apply negb_true_iff in Hxz.
    unfold new. cbn [app].
    rewrite count_scan_cons. cbn [Py.startswith]. rewrite Hxz, andb_false_r.
    rewrite count_scan_cons. cbn [Py.startswith]. rewrite z_not_a. simpl.
    now rewrite (count_pass (x0 :: x') w _) by exact a_not_in_w.
  - destruct (Py.startswith (c :: t) (a :: x)) eqn:F.
    + cbn [Py.startswith] in F. apply andb_true_iff in F as [Fc Ft].
      apply startswith_spec in Ft.
      assert (t = x ++ drop (length x) t) as Ht.
      { transitivity (take (length x) t ++ drop (length x) t);
          [symmetry; apply take_drop|now rewrite Ft]. }
      set (rest := drop (length x) t) in *.
      rewrite Ht, replace_pass by exact Hx.
      rewrite !count_scan_cons. cbn [Py.startswith].
      rewrite Fc, !startswith_app. cbn [andb length].
      rewrite Nat.sub_succ, Nat.sub_0_r, !drop_app_length.
      f_equal. apply (IH (length rest)); [|reflexivity].
      subst rest. rewrite length_drop.
      destruct x; [discriminate Hxz|]. simpl. lia.
    + rewrite !count_scan_cons, F.
      destruct (Py.startswith (c :: Py.replace_scan old new 0 t) (a :: x))
        eqn:G.
      * cbn [Py.startswith] in G, F. apply andb_true_iff in G as [Gc G].
        apply startswith_replace_inv in G; [|exact Hx].
        rewrite Gc, G in F. discriminate F.
      * apply (IH (length t)); [lia|reflexivity].
Qed.

(** An occurrence that starts before an [a] does not reach it. *)
Lemma startswith_before (x p rest : Py.str) :
  forallb (fun c => negb (N.eqb a c)) x = true ->
  Py.startswith (p ++ a :: rest) x = Py.startswith p x.
Proof.
  revert p. induction x as [|x0 x IH]; intros p Hx.
  - now rewrite !startswith_nil.
  - cbn [forallb] in Hx. apply andb_true_iff in Hx as [Hx0 Hx].
    apply negb_true_iff in Hx0.
    destruct p as [|c p]; cbn [app Py.startswith].
    + rewrite N.eqb_sym, Hx0. reflexivity.
    + now rewrite IH.
Qed.

(** A block that starts with [a] and is scanned on its own: what
    precedes it in the text is scanned on its own too. *)
Lemma replace_block (y out : Py.str) :
  (forall post, Py.replace_scan old new 0 (a :: y ++ post)
                = out ++ Py.replace_scan old new 0 post) ->
  forall pre post,
    Py.replace_scan old new 0 (pre ++ a :: y ++ post) =
    Py.replace_scan old new 0 pre ++ out ++ Py.replace_scan old new 0 post.
Proof.
  intros Hblock pre post.
  remember (length pre) as n eqn:Hn. revert pre Hn.
  induction n as [n IH] using lt_wf_ind. intros [|c p] Hn.
  - apply Hblock.
  - simpl in Hn. cbn [app]. rewrite !replace_scan_cons.
    assert (Py.startswith (c :: p ++ a :: y ++ post) old
            = Py.startswith (c :: p) old) as ->.
    { unfold old. cbn [Py.startswith]. f_equal.
      apply startswith_before, a_not_in_w. }
    destruct (Py.startswith (c :: p) old) eqn:E.
    + apply startswith_length in E. unfold old in E. simpl in E.
      rewrite drop_app_le by (unfold old; simpl; lia).
      rewrite (IH (length (drop (length old - 1) p)));
        [|rewrite length_drop; lia|reflexivity].
      now rewrite <- app_assoc.
    + cbn [app]. f_equal. apply (IH (length p)); [lia|reflexivity].
Qed.

(** An occurrence of [old] is replaced by [new], whatever surrounds it. *)
Lemma replace_around_old pre post :
  Py.replace_scan old new 0 (pre ++ old ++ post) =
  Py.replace_scan old new 0 pre ++ new ++ Py.replace_scan old new 0 post.
Proof.
  apply (replace_block w new). intros rest.
  rewrite replace_scan_cons.
  change (a :: w ++ rest) with (old ++ rest). rewrite startswith_app.
  unfold old. cbn [length]. rewrite Nat.sub_succ, Nat.sub_0_r.
  now rewrite drop_app_length.
Qed.

(** An [a] followed by something else than [w] is copied, whatever
    surrounds it. *)
Lemma replace_around_other (x : Py.str) pre post :
  forallb (fun c => negb (N.eqb a c)) x = true ->
  (forall rest, Py.startswith (x ++ rest) w = false) ->
  Py.replace_scan old new 0 (pre ++ a :: x ++ post) =
  Py.replace_scan old new 0 pre ++ (a :: x) ++ Py.replace_scan old new 0 post.
Proof.
  intros Hx Hxw. apply (replace_block x (a :: x)). intros rest.
  rewrite replace_scan_cons. unfold old at 1. cbn [Py.startswith].
  rewrite Hxw, andb_false_r. cbn [app]. f_equal. now apply replace_pass.
Qed.

End MentionFacts.

(** A text that contains [x] is cut by it in two. *)
Lemma contains_split s x :
  Py.contains s x = true -> exists pre post, s = pre ++ x ++ post.
Proof.
  induction s as [|c s IH]; cbn [Py.contains]; intros H.
  - rewrite orb_false_r in H. apply startswith_spec in H.
    rewrite take_nil in H. subst x. now exists [], [].
  - apply orb_true_iff in H as [H|H].
    + apply startswith_spec in H.
      exists [], (drop (length x) (c :: s)). cbn [app].
      transitivity (take (length x) (c :: s) ++ drop (length x) (c :: s));
        [symmetry; apply take_drop|now rewrite H].
    + destruct (IH H) as (pre & post & ->). now exists (c :: pre), post.
Qed.

(** ** [escape] *)

Section EscapeFacts.

Variable escape_markdown : Py.str -> Py.str.

Lemma escape_unfold text :
  escape escape_markdown text true false =
  Py.replace_scan at_here at_zw_here 0
    (Py.replace_scan at_everyone at_zw_everyone 0 text).
Proof. reflexivity. Qed.

Lemma escape_no_everyone text :
  Py.contains (escape escape_markdown text true false) at_everyone = false.
Proof.
  rewrite escape_unfold.
  apply (contains_replace 64 ZWSP (Py.lit "here") eq_refl eq_refl
           (Py.lit "everyone")); try reflexivity.
  intros k H. exfalso.
  rewrite (contains_false_drop _ at_everyone k) in H; [discriminate| |].
  - discriminate.
  - apply (contains_replace 64 ZWSP (Py.lit "everyone") eq_refl eq_refl
             (Py.lit "everyone")); try reflexivity. auto.
Qed.

Lemma escape_no_here text :
  Py.contains (escape escape_markdown text true false) at_here = false.
Proof.
  rewrite escape_unfold.
  apply (contains_replace 64 ZWSP (Py.lit "here") eq_refl eq_refl
           (Py.lit "here")); try reflexivity. auto.
Qed.

Lemma escape_absent text :
  Py.contains text at_everyone = false ->
  Py.contains text at_here = false ->
  escape escape_markdown text true false = text.
Proof.
  intros H1 H2. rewrite escape_unfold.
  rewrite (replace_scan_absent at_everyone) by exact H1.
  now apply replace_scan_absent.
Qed.

Lemma escape_only_inserts text :
  List.filter (fun c => negb (N.eqb c ZWSP))
              (escape escape_markdown text true false) =
  List.filter (fun c => negb (N.eqb c ZWSP)) text.
Proof.
  rewrite escape_unfold.
  rewrite (filter_replace 64 ZWSP (Py.lit "here")).
  apply (filter_replace 64 ZWSP (Py.lit "everyone")).
Qed.

Lemma blank_escape text :
  blank (escape escape_markdown text true false) = blank text.
Proof.
  rewrite escape_unfold.
  rewrite (blank_replace 64 ZWSP (Py.lit "here")) by reflexivity.
  apply (blank_replace 64 ZWSP (Py.lit "everyone")). reflexivity.
Qed.

Lemma nonblank_escape text :
  nonblank (escape escape_markdown text true false) = nonblank text.
Proof. now rewrite !nonblank_blank, blank_escape. Qed.

(** Escaping adds one character for each mention. *)
Lemma len_escape text :
  Py.len (escape escape_markdown text true false) =
  Py.len text + Py.count_scan at_everyone 0 text
  + Py.count_scan at_here 0 text.
Proof.
  rewrite escape_unfold.
  rewrite (len_replace_scan 64 ZWSP (Py.lit "here")).
  rewrite (len_replace_scan 64 ZWSP (Py.lit "everyone")).
  fold at_here at_everyone.
  rewrite (count_replace_other 64 ZWSP (Py.lit "everyone") eq_refl eq_refl
             (Py.lit "here")) by (intros; reflexivity).
  reflexivity.
Qed.

(** Every "@everyone" becomes "@" U+200B "everyone", and what is
    around it is escaped on its own. *)
Lemma escape_everyone pre post :
  escape escape_markdown (pre ++ at_everyone ++ post) true false =
  escape escape_markdown pre true false ++
  at_zw_everyone ++ escape escape_markdown post true false.
Proof.
  rewrite !escape_unfold.
  transitivity
    (Py.replace_scan at_here at_zw_here 0
       (Py.replace_scan at_everyone at_zw_everyone 0 pre ++
        at_zw_everyone ++
        Py.replace_scan at_everyone at_zw_everyone 0 post)).
  - f_equal.
    exact (replace_around_old 64 ZWSP (Py.lit "everyone") eq_refl pre post).
  - exact (replace_around_other 64 ZWSP (Py.lit "here") eq_refl
             (ZWSP :: Py.lit "everyone")
             (Py.replace_scan at_everyone at_zw_everyone 0 pre)
             (Py.replace_scan at_everyone at_zw_everyone 0 post)
             eq_refl (fun _ => eq_refl)).
Qed.

(** Every "@here" becomes "@" U+200B "here", and what is around it is
    escaped on its own. *)
Lemma escape_here pre post :
  escape escape_markdown (pre ++ at_here ++ post) true false =
  escape escape_markdown pre true false ++
  at_zw_here ++ escape escape_markdown post true false.
Proof.
  rewrite !escape_unfold.
  transitivity
    (Py.replace_scan at_here at_zw_here 0
       (Py.replace_scan at_everyone at_zw_everyone 0 pre ++
        at_here ++
        Py.replace_scan at_everyone at_zw_everyone 0 post)).
  - f_equal.
    exact (replace_around_other 64 ZWSP (Py.lit "everyone") eq_refl
             (Py.lit "here") pre post eq_refl (fun _ => eq_refl)).
  - exact (replace_around_old 64 ZWSP (Py.lit "here") eq_refl
             (Py.replace_scan at_everyone at_zw_everyone 0 pre)
             (Py.replace_scan at_everyone at_zw_everyone 0 post)).
Qed.

(** The two equations and the identity on text without mentions
    determine the function. *)
Lemma escape_determined (f : Py.str -> Py.str) :
  (forall text,
      Py.contains text at_everyone = false ->
      Py.contains text at_here = false -> f text = text) ->
  (forall pre post,
      f (pre ++ at_everyone ++ post) = f pre ++ at_zw_everyone ++ f post) ->
  (forall pre post,
      f (pre ++ at_here ++ post) = f pre ++ at_zw_here ++ f post) ->
  forall text, f text = escape escape_markdown text true false.
Proof.
  intros Hid He Hh text.
  remember (length text) as n eqn:Hn. revert text Hn.
  induction n as [n IH] using lt_wf_ind. intros text Hn.
  destruct (Py.contains text at_everyone) eqn:E.
  - apply contains_split in E as (pre & post & ->).
    rewrite !length_app in Hn. change (length at_everyone) with 9%nat in Hn.
    rewrite He, escape_everyone.
    rewrite (IH (length pre) ltac:(lia) pre eq_refl).
    now rewrite (IH (length post) ltac:(lia) post eq_refl).
  - destruct (Py.contains text at_here) eqn:F.
    + apply contains_split in F as (pre & post & ->).
      rewrite !length_app in Hn. change (length at_here) with 5%nat in Hn.
      rewrite Hh, escape_here.
      rewrite (IH (length pre) ltac:(lia) pre eq_refl).
      now rewrite (IH (length post) ltac:(lia) post eq_refl).
    + rewrite escape_absent by assumption. now apply Hid.
Qed.

End EscapeFacts.

(** ** Slices, [count] and [rfind] *)

Lemma slice_to_take {A} (s : list A) k :
  0 <= k -> Py.slice_to s k = take (Z.to_nat k) s.
Proof.
  intros Hk. unfold Py.slice_to, Py.clamp.
  destruct (k <? 0) eqn:E; [apply Z.ltb_lt in E; lia|].
  destruct (Z.min_spec k (Py.len s)) as [[H ->]|[H ->]]; [reflexivity|].
  unfold Py.len in *. rewrite Nat2Z.id, firstn_all.
  symmetry. apply take_ge. lia.
Qed.

Lemma slice_from_drop {A} (s : list A) k :
  0 <= k -> Py.slice_from s k = drop (Z.to_nat k) s.
Proof.
  intros Hk. unfold Py.slice_from, Py.clamp.
  destruct (k <? 0) eqn:E; [apply Z.ltb_lt in E; lia|].
  destruct (Z.min_spec k (Py.len s)) as [[H ->]|[H ->]]; [reflexivity|].
  unfold Py.len in *. rewrite Nat2Z.id, drop_all.
  symmetry. apply drop_ge. lia.
Qed.

Lemma slice_to_from {A} (s : list A) k :
  0 <= k -> Py.slice_to s k ++ Py.slice_from s k = s.
Proof.
  intros Hk. rewrite slice_to_take, slice_from_drop by exact Hk.
  apply take_drop.
Qed.

Lemma len_slice_from {A} (s : list A) k :
  0 <= k <= Py.len s -> Py.len (Py.slice_from s k) = Py.len s - k.
Proof.
  intros Hk. rewrite slice_from_drop by lia. unfold Py.len in *.
  rewrite length_drop. lia.
Qed.

Lemma len_slice_to {A} (s : list A) k :
  0 <= k <= Py.len s -> Py.len (Py.slice_to s k) = k.
Proof.
  intros Hk. rewrite slice_to_take by lia. unfold Py.len in *.
  rewrite length_take. lia.
Qed.

Lemma adjust_end_nonneg lim n :
  0 <= lim -> 0 <= n -> Py.adjust_end lim n = Z.min lim n.
Proof.
  intros. unfold Py.adjust_end.
  destruct (n <? lim) eqn:E1; [apply Z.ltb_lt in E1; lia|].
  apply Z.ltb_ge in E1.
  destruct (lim <? 0) eqn:E2; [apply Z.ltb_lt in E2; lia|]. lia.
Qed.

Lemma count_bound s sub b :
  sub <> [] -> 0 <= b ->
  0 <= Py.count s sub 0 b /\ Py.count s sub 0 b * Py.len sub <= b.
Proof.
  intros Hsub Hb. unfold Py.count.
  rewrite adjust_end_nonneg by (auto using len_nonneg).
  change (Py.adjust_start 0 (Py.len s)) with 0.
  pose proof (len_nonneg s) as Hs. pose proof (len_nonneg sub) as Hl.
  destruct (Z.min b (Py.len s) - 0 <? Py.len sub); [lia|].
  destruct sub as [|c sub]; [congruence|].
  destruct (count_scan_bound (c :: sub)
              (take (Z.to_nat (Z.min b (Py.len s) - 0)) (drop (Z.to_nat 0) s)))
    as [H0 H1]; [discriminate|].
  split; [exact H0|]. etransitivity; [exact H1|].
  unfold Py.len. rewrite length_take. lia.
Qed.

Lemma this_page_len_bounds in_text emm budget :
  1 <= budget ->
  1 <= this_page_len in_text emm budget <= budget.
Proof.
  intros Hb. unfold this_page_len. destruct emm; [|lia].
  destruct (count_bound in_text at_here budget) as [H1 H2];
    [discriminate|lia|].
  destruct (count_bound in_text at_everyone budget) as [H3 H4];
    [discriminate|lia|].
  change (Py.len at_here) with 5 in H2.
  change (Py.len at_everyone) with 9 in H4. lia.
Qed.

(** The mentions of a prefix that fits the budget are among those the
    loop counts. *)
Lemma count_prefix (a : N) (w s : Py.str) cd budget :
  forallb (fun c => negb (N.eqb a c)) w = true ->
  0 <= cd <= budget ->
  Py.count_scan (a :: w) 0 (take (Z.to_nat cd) s)
  <= Py.count s (a :: w) 0 budget.
Proof.
  intros Ha Hcd. unfold Py.count.
  pose proof (len_nonneg s) as Hs.
  rewrite adjust_end_nonneg by lia.
  change (Py.adjust_start 0 (Py.len s)) with 0.
  set (e := Z.min budget (Py.len s)).
  rewrite Z.sub_0_r. change (drop (Z.to_nat 0) s) with s.
  destruct (count_scan_bound (a :: w) (take (Z.to_nat cd) s))
    as [H0 H1]; [discriminate|].
  assert (Py.len (take (Z.to_nat cd) s) <= e) as Hlen.
  { unfold Py.len in *. rewrite length_take. lia. }
  destruct (e <? Py.len (a :: w)) eqn:E.
  - apply Z.ltb_lt in E. nia.
  - destruct (Z_le_gt_dec cd e) as [Hle|Hgt].
    + replace (take (Z.to_nat cd) s)
        with (take (Z.to_nat cd) (take (Z.to_nat e) s)).
      * now apply count_scan_take.
      * rewrite take_take. f_equal. lia.
    + rewrite (take_ge s (Z.to_nat e)) by (unfold Py.len in *; lia).
      now apply count_scan_take.
Qed.

Lemma match_at_spec s d i :
  0 <= i -> i + Py.len d <= Py.len s ->
  Py.match_at s d i = true <-> occurs_at s d i.
Proof.
  intros Hi Hfit. unfold Py.match_at, occurs_at. rewrite startswith_spec.
  tauto.
Qed.

Lemma occurs_at_fits s d i : occurs_at s d i -> i + Py.len d <= Py.len s.
Proof. intros (_ & H & _). exact H. Qed.

Lemma rfind_down_spec s d lo k :
  0 <= lo ->
  let r := Py.rfind_down s d lo k in
  (r = -1 /\ forall j, lo <= j <= lo + Z.of_nat k -> Py.match_at s d j = false)
  \/ (lo <= r <= lo + Z.of_nat k /\ Py.match_at s d r = true /\
      forall j, r < j <= lo + Z.of_nat k -> Py.match_at s d j = false).
Proof.
  intros Hlo. induction k as [|k IH]; cbn [Py.rfind_down].
  - destruct (Py.match_at s d lo) eqn:E.
    + right. split; [lia|]. split; [exact E|]. intros j Hj. lia.
    + left. split; [reflexivity|]. intros j Hj.
      replace j with lo by lia. exact E.
  - destruct (Py.match_at s d (lo + Z.of_nat (S k))) eqn:E.
    + right. split; [lia|]. split; [exact E|]. intros j Hj. lia.
    + destruct IH as [[-> IH]|(Hr & Hm & IH)].
      * left. split; [reflexivity|]. intros j Hj.
        destruct (Z.eq_dec j (lo + Z.of_nat (S k))) as [->|]; [exact E|].
        apply IH. lia.
      * right. split; [lia|]. split; [exact Hm|]. intros j Hj.
        destruct (Z.eq_dec j (lo + Z.of_nat (S k))) as [->|]; [exact E|].
        apply IH. lia.
Qed.

(** [rfind(d, 1, limit)] is the last occurrence in range, or [-1]. *)
Lemma rfind_spec in_text d limit :
  0 <= limit ->
  let r := Py.rfind in_text d 1 limit in
  (r = -1 /\ forall j, ~ in_range in_text d limit j)
  \/ last_in_range in_text d limit r.
Proof.
  intros Hlim. unfold Py.rfind.
  pose proof (len_nonneg in_text) as Hn. pose proof (len_nonneg d) as Hd.
  rewrite adjust_end_nonneg by assumption.
  change (Py.adjust_start 1 (Py.len in_text)) with 1.
  set (e := Z.min limit (Py.len in_text)).
  destruct (e - 1 <? Py.len d) eqn:E.
  - left. split; [reflexivity|]. intros j (Hj & Hjd & Ho).
    apply occurs_at_fits in Ho. apply Z.ltb_lt in E. lia.
  - apply Z.ltb_ge in E.
    destruct (rfind_down_spec in_text d 1 (Z.to_nat (e - 1 - Py.len d)))
      as [[-> H]|(Hr & Hm & H)]; [lia| |].
    + left. split; [reflexivity|]. intros j (Hj & Hjd & Ho).
      pose proof (occurs_at_fits _ _ _ Ho).
      apply match_at_spec in Ho; [|lia..]. rewrite H in Ho; [discriminate|lia].
    + right. rewrite Z2Nat.id in Hr, H by lia.
      apply match_at_spec in Hm; [|lia..].
      split; [split; [lia|split; [lia|exact Hm]]|].
      intros j (Hj & Hjd & Ho). pose proof (occurs_at_fits _ _ _ Ho).
      apply match_at_spec in Ho; [|lia..].
      destruct (Z_le_gt_dec j (Py.rfind_down in_text d 1
                                 (Z.to_nat (e - 1 - Py.len d)))); [assumption|].
      rewrite H in Ho; [discriminate|lia].
Qed.

Lemma rfind_range in_text d limit :
  0 <= limit ->
  Py.rfind in_text d 1 limit = -1 \/ 1 <= Py.rfind in_text d 1 limit <= limit.
Proof.
  intros Hlim. destruct (rfind_spec in_text d limit Hlim) as [[H _]|[H _]].
  - now left.
  - right. destruct H as (H1 & H2 & _). pose proof (len_nonneg d). lia.
Qed.

(** ** Break-point selection *)

Lemma fold_left_max_spec (l : list Z) (x : Z) :
  let m := fold_left Z.max l x in
  (m = x \/ In m l) /\ x <= m /\ forall y, In y l -> y <= m.
Proof.
  revert x. induction l as [|a l IH]; intros x; simpl.
  - split; [now left|]. split; [lia|]. intros y [].
  - destruct (IH (Z.max x a)) as (Hm & Hx & Hl).
    split; [|split].
    + destruct Hm as [Hm|Hm]; [|right; right; exact Hm].
      destruct (Z.max_spec x a) as [[_ E]|[_ E]]; rewrite E in *.
      * right. left. now symmetry.
      * now left.
    + lia.
    + intros y [<-|Hy]; [lia|now apply Hl].
Qed.

Lemma py_max_spec (xs : list Z) (m : Z) :
  Py.max xs = Some m -> In m xs /\ forall x, In x xs -> x <= m.
Proof.
  destruct xs as [|x xs]; [discriminate|]. intros [= <-].
  destruct (fold_left_max_spec xs x) as (Hm & Hx & Hl).
  split.
  - destruct Hm as [->|Hm]; [now left|now right].
  - intros y [<-|Hy]; [exact Hx|now apply Hl].
Qed.

Lemma py_max_some (xs : list Z) : xs <> [] -> exists m, Py.max xs = Some m.
Proof. destruct xs; [congruence|]. intros _. eexists. reflexivity. Qed.

Lemma next_positive_spec (xs : list Z) (default : Z) :
  let r := Py.next_positive xs default in
  (r = default /\ forall x, In x xs -> x <= 0)
  \/ (exists pre post, xs = pre ++ r :: post /\ 0 < r /\
        forall x, In x pre -> x <= 0).
Proof.
  induction xs as [|x xs IH]; simpl.
  - left. split; [reflexivity|]. intros x [].
  - destruct (0 <? x) eqn:E.
    + apply Z.ltb_lt in E. right. exists [], xs. split; [reflexivity|].
      split; [exact E|]. intros y [].
    + apply Z.ltb_ge in E. destruct IH as [[Hr H]|(pre & post & Hxs & Hr & H)].
      * left. split; [exact Hr|]. intros y [<-|Hy]; auto.
      * right. exists (x :: pre), post. split; [simpl; congruence|].
        split; [exact Hr|]. intros y [<-|Hy]; auto.
Qed.

Section BreakPoint.

Variables (in_text : Py.str) (limit : Z).
Hypothesis limit_nonneg : 0 <= limit.

Let found (d : Py.str) : Z := Py.rfind in_text d 1 limit.

Lemma found_in_range d i : in_range in_text d limit i -> i <= found d /\ last_in_range in_text d limit (found d).
Proof.
  intros Hi. destruct (rfind_spec in_text d limit limit_nonneg) as [[_ H]|H].
  - now apply H in Hi.
  - split; [|exact H]. now apply H.
Qed.

Lemma found_none d :
  (forall j, ~ in_range in_text d limit j) -> found d = -1.
Proof.
  intros Hn. destruct (rfind_spec in_text d limit limit_nonneg) as [[H _]|[H _]].
  - exact H.
  - now apply Hn in H.
Qed.

Lemma found_positive d :
  0 < found d -> last_in_range in_text d limit (found d).
Proof.
  intros Hp. destruct (rfind_spec in_text d limit limit_nonneg) as [[H _]|H].
  - unfold found in Hp. lia.
  - exact H.
Qed.

Lemma found_range d : found d = -1 \/ 1 <= found d <= limit.
Proof. apply rfind_range. exact limit_nonneg. Qed.

Lemma closest_delim_priority pre d post i :
  (forall d' j, In d' pre -> ~ in_range in_text d' limit j) ->
  last_in_range in_text d limit i ->
  closest_delim in_text (pre ++ d :: post) true limit = Some i.
Proof.
  intros Hpre [Hi Hmax]. unfold closest_delim.
  assert (Py.next_positive
            (List.map (fun d => Py.rfind in_text d 1 limit) (pre ++ d :: post))
            (-1) = i) as ->.
  { induction pre as [|p pre IH]; simpl.
    - destruct (found_in_range d i Hi) as [Hle [Hin _]]. fold (found d).
      assert (found d = i) as -> by (apply Hmax in Hin; lia).
      destruct Hi as [Hi _]. destruct (0 <? i) eqn:E; [reflexivity|].
      apply Z.ltb_ge in E. lia.
    - fold (found p). rewrite (found_none p).
      + simpl. apply IH. intros d' j Hd'. apply Hpre. now right.
      + intros j. apply Hpre. now left. }
  destruct Hi as [Hi _]. destruct (i =? -1) eqn:E; [|reflexivity].
  apply Z.eqb_eq in E. lia.
Qed.

Lemma closest_delim_latest delims d i :
  In d delims -> in_range in_text d limit i ->
  exists m, closest_delim in_text delims false limit = Some m /\
    (exists d', In d' delims /\ last_in_range in_text d' limit m) /\
    (forall d' j, In d' delims -> in_range in_text d' limit j -> j <= m).
Proof.
  intros Hd Hi. unfold closest_delim.
  destruct (py_max_some (List.map (fun d => Py.rfind in_text d 1 limit) delims))
    as [m Hm].
  { destruct delims; [destruct Hd|discriminate]. }
  rewrite Hm. apply py_max_spec in Hm as [Hin Hmax].
  assert (forall d' j, In d' delims -> in_range in_text d' limit j -> j <= m)
    as Hall.
  { intros d' j Hd' Hj. destruct (found_in_range d' j Hj) as [Hle _].
    etransitivity; [exact Hle|]. apply Hmax.
    apply in_map_iff. now exists d'. }
  assert (1 <= m) as Hm1.
  { destruct Hi as [Hi1 Hi2]. specialize (Hall d i Hd (conj Hi1 Hi2)). lia. }
  exists m. destruct (m =? -1) eqn:E; [apply Z.eqb_eq in E; lia|].
  split; [reflexivity|]. split; [|exact Hall].
  apply in_map_iff in Hin as (d' & Hd' & Hin). exists d'. split; [exact Hin|].
  rewrite <- Hd'. apply found_positive. unfold found. lia.
Qed.

Lemma closest_delim_hard_cut delims priority :
  priority = true \/ delims <> [] ->
  (forall d j, In d delims -> ~ in_range in_text d limit j) ->
  closest_delim in_text delims priority limit = Some limit.
Proof.
  intros Hdom Hnone. unfold closest_delim.
  assert (forall x, In x (List.map (fun d => Py.rfind in_text d 1 limit) delims)
                    -> x = -1) as Hall.
  { intros x (d & <- & Hd)%in_map_iff. apply found_none.
    intros j. now apply Hnone. }
  destruct priority.
  - destruct (next_positive_spec
                (List.map (fun d => Py.rfind in_text d 1 limit) delims) (-1))
      as [[-> _]|(pre & post & Hxs & Hr & _)]; [reflexivity|].
    rewrite (Hall (Py.next_positive _ (-1))) in Hr; [lia|].
    rewrite Hxs at 2. apply in_elt.
  - destruct Hdom as [|Hdom]; [discriminate|].
    destruct (py_max_some (List.map (fun d => Py.rfind in_text d 1 limit) delims))
      as [m Hm]; [destruct delims; [congruence|discriminate]|].
    rewrite Hm. apply py_max_spec in Hm as [Hin _].
    apply Hall in Hin. now subst m.
Qed.

(** Whatever is chosen lies between 1 and the working limit. *)
Lemma closest_delim_range delims priority :
  1 <= limit ->
  priority = true \/ delims <> [] ->
  exists cd, closest_delim in_text delims priority limit = Some cd /\
             1 <= cd <= limit.
Proof.
  intros Hlim Hdom. unfold closest_delim.
  assert (forall x, In x (List.map (fun d => Py.rfind in_text d 1 limit) delims)
                    -> x = -1 \/ 1 <= x <= limit) as Hall.
  { intros x (d & <- & Hd)%in_map_iff. apply found_range. }
  assert (forall x, (x = -1 \/ 1 <= x <= limit) ->
            1 <= (if x =? -1 then limit else x) <= limit) as Hfix.
  { intros x Hx. destruct (x =? -1) eqn:E; [lia|].
    apply Z.eqb_neq in E. lia. }
  destruct priority.
  - eexists. split; [reflexivity|]. apply Hfix.
    destruct (next_positive_spec
                (List.map (fun d => Py.rfind in_text d 1 limit) delims) (-1))
      as [[-> _]|(pre & post & Hxs & Hr & _)]; [now left|].
    apply Hall. rewrite Hxs at 2. apply in_elt.
  - destruct Hdom as [|Hdom]; [discriminate|].
    destruct (py_max_some (List.map (fun d => Py.rfind in_text d 1 limit) delims))
      as [m Hm]; [destruct delims; [congruence|discriminate]|].
    rewrite Hm. eexists. split; [reflexivity|]. apply Hfix.
    apply py_max_spec in Hm as [Hin _]. now apply Hall.
Qed.

End BreakPoint.

Lemma closest_delim_no_delims in_text limit :
  closest_delim in_text [] false limit = None.
Proof. reflexivity. Qed.

(** ** The loop of [pagify] *)

Section PagifyFacts.

Variable escape_markdown : Py.str -> Py.str.
Variables (delims : list Py.str) (priority escape_mass_mentions : bool).
Variable budget : Z.

Let loop (fuel : nat) (in_text : Py.str) :=
  pagify_loop escape_markdown fuel in_text delims priority
    escape_mass_mentions budget.
Let page := page_of escape_markdown escape_mass_mentions.

Lemma nonblank_page_of s : nonblank (page s) = negb (blank s).
Proof.
  unfold page, page_of. destruct escape_mass_mentions.
  - rewrite nonblank_escape. apply nonblank_blank.
  - apply nonblank_blank.
Qed.

(** The text fits the budget: the loop body is not entered. *)
Lemma pagify_loop_short fuel in_text :
  Py.len in_text <= budget ->
  loop (S fuel) in_text =
  (if blank in_text then [] else [page in_text], Exhausted).
Proof.
  intros H. unfold loop. cbn [pagify_loop].
  apply Z.ltb_ge in H. rewrite H. rewrite nonblank_blank.
  destruct (blank in_text); reflexivity.
Qed.

(** One iteration. *)
Lemma pagify_loop_step fuel in_text cd :
  budget < Py.len in_text ->
  closest_delim in_text delims priority
    (this_page_len in_text escape_mass_mentions budget) = Some cd ->
  loop (S fuel) in_text =
  (let '(pages, o) := loop fuel (Py.slice_from in_text cd) in
   (if blank (Py.slice_to in_text cd) then pages
    else page (Py.slice_to in_text cd) :: pages, o)).
Proof.
  intros H Hcd. unfold loop. cbn [pagify_loop].
  apply Z.ltb_lt in H. rewrite H, Hcd.
  destruct (pagify_loop _ fuel _ _ _ _ _) as [pages o].
  fold (page_of escape_markdown escape_mass_mentions (Py.slice_to in_text cd)).
  fold page. rewrite nonblank_page_of.
  destruct (blank (Py.slice_to in_text cd)); reflexivity.
Qed.

Lemma pagify_loop_raises fuel in_text :
  budget < Py.len in_text ->
  closest_delim in_text delims priority
    (this_page_len in_text escape_mass_mentions budget) = None ->
  loop (S fuel) in_text = ([], Raised Py.ValueError).
Proof.
  intros H Hcd. unfold loop. cbn [pagify_loop].
  apply Z.ltb_lt in H. now rewrite H, Hcd.
Qed.

Hypothesis budget_positive : 1 <= budget.
Hypothesis delims_usable : priority = true \/ delims <> [].

(** The cursor advances: the break point is at least 1, at most the
    budget, and the rest is shorter. *)
Lemma pagify_advances in_text :
  budget < Py.len in_text ->
  exists cd,
    closest_delim in_text delims priority
      (this_page_len in_text escape_mass_mentions budget) = Some cd /\
    1 <= cd <= budget /\
    Py.len (Py.slice_from in_text cd) = Py.len in_text - cd.
Proof.
  intros H.
  pose proof (this_page_len_bounds in_text escape_mass_mentions budget
                budget_positive) as Hlim.
  destruct (closest_delim_range in_text
              (this_page_len in_text escape_mass_mentions budget)
              ltac:(lia) delims priority ltac:(lia) delims_usable)
    as (cd & Hcd & Hr).
  exists cd. split; [exact Hcd|]. split; [lia|].
  apply len_slice_from. lia.
Qed.

(** The run cuts the text into consecutive segments, yields the
    non-blank ones (escaped when asked) and ends. *)
Lemma pagify_loop_segments in_text :
  exists segs,
    concat segs = in_text /\
    Forall (fun s => Py.len s <= budget) segs /\
    forall fuel, (length in_text < fuel)%nat ->
      loop fuel in_text =
      (List.map page (List.filter (fun s => negb (blank s)) segs), Exhausted).
Proof.
  remember (length in_text) as n eqn:Hn. revert in_text Hn.
  induction n as [n IH] using lt_wf_ind. intros in_text Hn.
  destruct (Z_lt_le_dec budget (Py.len in_text)) as [Hlong|Hshort].
  - destruct (pagify_advances in_text Hlong) as (cd & Hcd & Hr & Hlen).
    destruct (IH (length (Py.slice_from in_text cd))) with
      (in_text := Py.slice_from in_text cd) as (segs & Hcat & Hall & Hrun).
    { unfold Py.len in *. lia. }
    { reflexivity. }
    exists (Py.slice_to in_text cd :: segs). split; [|split].
    + simpl. rewrite Hcat. apply slice_to_from. lia.
    + constructor; [|exact Hall]. rewrite len_slice_to; lia.
    + intros [|fuel] Hfuel; [lia|].
      rewrite (pagify_loop_step fuel in_text cd Hlong Hcd).
      rewrite Hrun by (unfold Py.len in *; lia).
      simpl. destruct (blank (Py.slice_to in_text cd)); reflexivity.
  - exists [in_text]. split; [|split].
    + simpl. apply app_nil_r.
    + constructor; [exact Hshort|constructor].
    + intros [|fuel] Hfuel; [lia|].
      rewrite pagify_loop_short by exact Hshort.
      simpl. destruct (blank in_text); reflexivity.
Qed.

(** A slice taken inside the loop fits the budget once escaped: the
    limit was shortened by the number of mentions in sight. *)
Lemma pagify_loop_page_fits in_text cd :
  budget < Py.len in_text ->
  closest_delim in_text delims priority
    (this_page_len in_text escape_mass_mentions budget) = Some cd ->
  Py.len (page (Py.slice_to in_text cd)) <= budget.
Proof.
  intros Hlong Hcd.
  pose proof (this_page_len_bounds in_text escape_mass_mentions budget
                budget_positive) as Hlim.
  destruct (closest_delim_range in_text
              (this_page_len in_text escape_mass_mentions budget)
              ltac:(lia) delims priority ltac:(lia) delims_usable)
    as (cd' & Hcd' & Hr).
  rewrite Hcd in Hcd'. injection Hcd' as <-.
  unfold page, page_of, this_page_len in *.
  destruct escape_mass_mentions.
  - rewrite len_escape, len_slice_to by lia.
    rewrite slice_to_take by lia.
    pose proof (count_prefix 64 (Py.lit "here") in_text cd budget eq_refl
                  ltac:(lia)).
    pose proof (count_prefix 64 (Py.lit "everyone") in_text cd budget eq_refl
                  ltac:(lia)).
    change (64%N :: Py.lit "here") with at_here in *.
    change (64%N :: Py.lit "everyone") with at_everyone in *. lia.
  - rewrite len_slice_to by lia. lia.
Qed.

(** The run again, telling the slices of the loop from the last one. *)
Lemma pagify_loop_pages in_text :
  exists segs last,
    concat segs ++ last = in_text /\
    Forall (fun s => Py.len (page s) <= budget) segs /\
    Py.len last <= budget /\
    forall fuel, (length in_text < fuel)%nat ->
      loop fuel in_text =
      (List.map page (List.filter (fun s => negb (blank s)) (segs ++ [last])),
       Exhausted).
Proof.
  remember (length in_text) as n eqn:Hn. revert in_text Hn.
  induction n as [n IH] using lt_wf_ind. intros in_text Hn.
  destruct (Z_lt_le_dec budget (Py.len in_text)) as [Hlong|Hshort].
  - destruct (pagify_advances in_text Hlong) as (cd & Hcd & Hr & Hlen).
    destruct (IH (length (Py.slice_from in_text cd))) with
      (in_text := Py.slice_from in_text cd)
      as (segs & last & Hcat & Hall & Hlast & Hrun).
    { unfold Py.len in *. lia. }
    { reflexivity. }
    exists (Py.slice_to in_text cd :: segs), last.
    split; [|split; [|split]].
    + simpl. rewrite <- app_assoc, Hcat. apply slice_to_from. lia.
    + constructor; [|exact Hall]. now apply pagify_loop_page_fits.
    + exact Hlast.
    + intros [|fuel] Hfuel; [lia|].
      rewrite (pagify_loop_step fuel in_text cd Hlong Hcd).
      rewrite Hrun by (unfold Py.len in *; lia).
      simpl. destruct (blank (Py.slice_to in_text cd)); reflexivity.
  - exists [], in_text. split; [reflexivity|].
    split; [constructor|]. split; [exact Hshort|].
    intros [|fuel] Hfuel; [lia|].
    rewrite pagify_loop_short by exact Hshort.
    simpl. destruct (blank in_text); reflexivity.
Qed.

End PagifyFacts.

(** A run that ended keeps its result when given more fuel. *)
Lemma pagify_loop_fuel md delims priority emm budget fuel k :
  forall in_text pages,
  pagify_loop md fuel in_text delims priority emm budget = (pages, Exhausted) ->
  pagify_loop md (fuel + k) in_text delims priority emm budget
  = (pages, Exhausted).
Proof.
  induction fuel as [|fuel IH]; intros in_text pages H; [discriminate H|].
  cbn [pagify_loop Nat.add] in *.
  destruct (budget <? Py.len in_text); [|exact H].
  destruct (closest_delim _ _ _ _) as [cd|]; [|discriminate H].
  destruct (pagify_loop md fuel _ _ _ _ _) as [ps o] eqn:E.
  injection H as <- ->. rewrite (IH _ _ E). reflexivity.
Qed.

Lemma this_page_len_nonneg in_text emm budget :
  0 <= budget -> 0 <= this_page_len in_text emm budget <= budget.
Proof.
  intros Hb. destruct (Z.eq_dec budget 0) as [->|Hne].
  - unfold this_page_len. destruct emm; [|lia].
    destruct (count_bound in_text at_here 0) as [H1 H2]; [discriminate|lia|].
    destruct (count_bound in_text at_everyone 0) as [H3 H4];
      [discriminate|lia|].
    change (Py.len at_here) with 5 in H2.
    change (Py.len at_everyone) with 9 in H4. lia.
  - pose proof (this_page_len_bounds in_text emm budget). lia.
Qed.

(** ** [format] on the templates of [bordered] *)

Lemma fmap_fmap {A B C} (f : B -> C) (g : A -> B) (r : Py.result A) :
  Py.fmap f (Py.fmap g r) = Py.fmap (fun a => f (g a)) r.
Proof. destruct r; reflexivity. Qed.

Lemma fmap_ext {A B} (f g : A -> B) (r : Py.result A) :
  (forall a, f a = g a) -> Py.fmap f r = Py.fmap g r.
Proof. intros H. destruct r; simpl; [now rewrite H|reflexivity]. Qed.

Section FormatFacts.

Variable kwargs : Py.dict.

Lemma formats_nil : formats kwargs [] [].
Proof. intros rest. simpl. now destruct (Py.format_scan kwargs None rest). Qed.

Lemma formats_app t1 o1 t2 o2 :
  formats kwargs t1 o1 -> formats kwargs t2 o2 ->
  formats kwargs (t1 ++ t2) (o1 ++ o2).
Proof.
  intros H1 H2 rest. rewrite <- app_assoc, H1, H2, fmap_fmap.
  apply fmap_ext. intros a. apply app_assoc.
Qed.

Lemma formats_plain t : forallb nonbrace t = true -> formats kwargs t t.
Proof.
  induction t as [|c t IH]; [intros _; apply formats_nil|].
  cbn [forallb]. intros [Hc Ht]%andb_true_iff rest.
  unfold nonbrace in Hc. apply andb_true_iff in Hc as [Hl Hr].
  apply negb_true_iff in Hl, Hr.
  cbn [app Py.format_scan]. rewrite Hl, Hr, (IH Ht rest), fmap_fmap.
  reflexivity.
Qed.

Lemma formats_mul t o n :
  formats kwargs t o -> formats kwargs (Py.mul t n) (Py.mul o n).
Proof.
  intros H. unfold Py.mul.
  induction (Z.to_nat n) as [|k IH]; simpl.
  - apply formats_nil.
  - now apply formats_app.
Qed.

Lemma formats_join sep sep' ts os :
  formats kwargs sep sep' ->
  Forall2 (formats kwargs) ts os ->
  formats kwargs (Py.join sep ts) (Py.join sep' os).
Proof.
  intros Hsep H. induction H as [|t o ts os Ht Hts IH].
  - apply formats_nil.
  - destruct Hts as [|t' o' ts os Ht' Hts].
    + exact Ht.
    + cbn [Py.join] in *. apply formats_app; [exact Ht|].
      apply formats_app; [exact Hsep|exact IH].
Qed.

Lemma formats_run t o : formats kwargs t o -> Py.format t kwargs = Py.Ok o.
Proof.
  intros H. unfold Py.format. specialize (H []).
  rewrite app_nil_r in H. rewrite H. simpl. now rewrite app_nil_r.
Qed.

End FormatFacts.

Lemma len_mul_char (c : Py.char) n : 0 <= n -> Py.len (Py.mul [c] n) = n.
Proof.
  intros Hn. unfold Py.mul, Py.len.
  rewrite <- (Z2Nat.id n) at 2 by exact Hn.
  induction (Z.to_nat n) as [|k IH]; simpl; [reflexivity|]. lia.
Qed.

Lemma forallb_mul_char (P : Py.char -> bool) c n :
  P c = true -> forallb P (Py.mul [c] n) = true.
Proof.
  intros Hc. unfold Py.mul.
  induction (Z.to_nat n) as [|k IH]; simpl; [reflexivity|]. now rewrite Hc.
Qed.

Lemma no_newline_app s t :
  no_newline (s ++ t) = no_newline s && no_newline t.
Proof. apply forallb_app. Qed.

Lemma plain_line_nonbrace s : plain_line s = true -> forallb nonbrace s = true.
Proof.
  unfold plain_line. rewrite !forallb_forall. intros H c Hc.
  specialize (H c Hc). unfold plain_char in H.
  now apply andb_true_iff in H as [H _].
Qed.

Lemma plain_line_no_newline s : plain_line s = true -> no_newline s = true.
Proof.
  unfold plain_line, no_newline. rewrite !forallb_forall. intros H c Hc.
  specialize (H c Hc). unfold plain_char in H.
  now apply andb_true_iff in H as [_ H].
Qed.

(** ** The cells of [bordered] *)

Section CellFacts.

Variable ascii_border : bool.

Let glyph (key : string) : Py.char :=
  match Py.dict_get (borders ascii_border) (Py.lit key) with
  | Some [g] => g
  | _ => 0%N
  end.

Lemma formats_key (key : string) :
  In key ["TL"; "TR"; "BL"; "BR"; "HZ"; "VT"]%string ->
  formats (borders ascii_border)
          (Py.lbrace :: Py.lit key ++ [Py.rbrace]) [glyph key] /\
  N.eqb (glyph key) NL = false.
Proof.
  intros Hk. simpl in Hk.
  destruct Hk as [<-|[<-|[<-|[<-|[<-|[<-|[]]]]]]];
    (split; [intros rest|]); destruct ascii_border; reflexivity.
Qed.

Lemma border_cell_ok (l r : string) width :
  In l ["TL"; "TR"; "BL"; "BR"; "HZ"; "VT"]%string ->
  In r ["TL"; "TR"; "BL"; "BR"; "HZ"; "VT"]%string ->
  0 <= width ->
  cell_ok ascii_border width
    ((Py.lbrace :: Py.lit l ++ [Py.rbrace])
       ++ Py.mul (Py.lit "{HZ}") width
       ++ (Py.lbrace :: Py.lit r ++ [Py.rbrace])).
Proof.
  intros Hl Hr Hw.
  destruct (formats_key l Hl) as [Fl Nl].
  destruct (formats_key r Hr) as [Fr Nr].
  destruct (formats_key "HZ") as [Fh Nh]; [simpl; tauto|].
  exists ([glyph l] ++ Py.mul [glyph "HZ"] width ++ [glyph r]).
  split; [|split].
  - apply formats_app; [exact Fl|]. apply formats_app; [|exact Fr].
    now apply formats_mul.
  - rewrite !len_app, len_mul_char by exact Hw.
    change (Py.len [glyph l]) with 1. change (Py.len [glyph r]) with 1. lia.
  - rewrite !no_newline_app. unfold no_newline at 1 3. simpl.
    rewrite Nl, Nr. simpl. rewrite andb_true_r.
    apply forallb_mul_char. now rewrite Nh.
Qed.

Lemma cell_top_ok width : 0 <= width -> cell_ok ascii_border width (cell_top width).
Proof. apply (border_cell_ok "TL" "TR"); simpl; tauto. Qed.

Lemma cell_bottom_ok width :
  0 <= width -> cell_ok ascii_border width (cell_bottom width).
Proof. apply (border_cell_ok "BL" "BR"); simpl; tauto. Qed.

Lemma cell_blank_ok width :
  0 <= width -> cell_ok ascii_border width (cell_blank width).
Proof.
  intros Hw. exists (cell_blank width). unfold cell_blank. split; [|split].
  - apply formats_plain. now apply forallb_mul_char.
  - apply len_mul_char. lia.
  - now apply forallb_mul_char.
Qed.

Lemma cell_text_ok width column :
  plain_line column = true -> Py.len column <= width ->
  cell_ok ascii_border width (cell_text width column).
Proof.
  intros Hp Hw.
  destruct (formats_key "VT") as [Fv Nv]; [simpl; tauto|].
  exists ([glyph "VT"] ++ (column ++ Py.mul [SPACE] (width - Py.len column))
            ++ [glyph "VT"]).
  split; [|split].
  - apply formats_app; [exact Fv|]. apply formats_app; [|exact Fv].
    apply formats_plain. rewrite forallb_app.
    rewrite (plain_line_nonbrace _ Hp). now apply forallb_mul_char.
  - rewrite !len_app, len_mul_char by lia. change (Py.len [glyph "VT"]) with 1.
    lia.
  - rewrite !no_newline_app. unfold no_newline at 1 4. simpl.
    rewrite Nv, (plain_line_no_newline _ Hp). simpl. rewrite andb_true_r.
    now apply forallb_mul_char.
Qed.

End CellFacts.

(** ** The loops of [bordered] *)

Lemma widths_raises columns :
  In [] columns -> widths columns = Py.Raise Py.ValueError.
Proof.
  induction columns as [|column columns IH]; [intros []|].
  intros [->|H]; [reflexivity|]. cbn [widths].
  destruct (Py.max (List.map Py.len column)); [|reflexivity].
  now rewrite IH.
Qed.

Lemma widths_ok columns :
  Forall (fun column => column <> []) columns ->
  exists ws, widths columns = Py.Ok ws /\ Forall2 fits columns ws.
Proof.
  induction 1 as [|column columns Hne _ IH].
  - exists []. split; [reflexivity|constructor].
  - destruct IH as (ws & Hws & Hfit). cbn [widths].
    destruct (py_max_some (List.map Py.len column)) as [m Hm].
    { destruct column; [congruence|discriminate]. }
    rewrite Hm, Hws. exists (m + 9 :: ws). split; [reflexivity|].
    constructor; [|exact Hfit].
    apply py_max_spec in Hm as [Hin Hmax].
    assert (forall line, In line column -> Py.len line <= m) as Hle.
    { intros line Hl. apply Hmax. apply in_map_iff. now exists line. }
    split; [|intros line Hl; specialize (Hle line Hl); lia].
    apply in_map_iff in Hin as (line & <- & _).
    pose proof (len_nonneg line). lia.
Qed.

Section LoopFacts.

Variable ascii_border : bool.
Variable ws : list Z.

Lemma row_loop_ok line : forall colidx colsdone,
  length colsdone = length ws ->
  Forall2 offer (drop colidx ws) line ->
  exists row colsdone',
    row_loop ws colidx line colsdone = Py.Ok (row, colsdone') /\
    length colsdone' = length ws /\
    Forall2 (cell_ok ascii_border) (drop colidx ws) row.
Proof.
  induction line as [|column line IH]; intros colidx colsdone Hlen H.
  - apply Forall2_nil_inv_r in H. rewrite H.
    exists [], colsdone. split; [reflexivity|]. split; [exact Hlen|constructor].
  - apply Forall2_cons_inv_r in H as (width & rest & [Hw Hoff] & Hrest & Hdrop).
    assert (ws !! colidx = Some width) as Hlook.
    { rewrite <- (Nat.add_0_r colidx), <- lookup_drop, Hdrop. reflexivity. }
    assert (drop (S colidx) ws = rest) as Hnext.
    { replace (S colidx) with (colidx + 1)%nat by lia.
      rewrite <- drop_drop, Hdrop. reflexivity. }
    destruct (lookup_lt_is_Some_2 colsdone colidx) as [done Hdone].
    { rewrite Hlen. eapply lookup_lt_Some. exact Hlook. }
    cbn [row_loop]. rewrite Hlook, Hdone. rewrite Hdrop.
    set (step := match column with
                 | Some column0 => (cell_text width column0, colsdone)
                 | None =>
                     if negb done
                     then (cell_bottom width, <[colidx:=true]> colsdone)
                     else (cell_blank width, colsdone)
                 end).
    assert (cell_ok ascii_border width step.1 /\
            length step.2 = length ws) as [Hcell Hlen'].
    { subst step. destruct column as [text|].
      - destruct Hoff as [Hp Hl]. split; [|exact Hlen].
        now apply cell_text_ok.
      - destruct done; simpl.
        + split; [now apply cell_blank_ok|exact Hlen].
        + split; [now apply cell_bottom_ok|].
          now rewrite length_insert. }
    destruct step as [cell colsdone1]. simpl in Hcell, Hlen'.
    destruct (IH (S colidx) colsdone1 Hlen') as (row & cd & Hrun & Hcd & Hrow).
    { rewrite Hnext. exact Hrest. }
    rewrite Hrun. exists (cell :: row), cd. split; [reflexivity|].
    split; [exact Hcd|]. constructor; [exact Hcell|].
    rewrite <- Hnext. exact Hrow.
Qed.

Lemma lines_loop_ok lines : forall colsdone,
  length colsdone = length ws ->
  Forall (Forall2 offer ws) lines ->
  exists rows colsdone',
    lines_loop ws lines colsdone = Py.Ok (rows, colsdone') /\
    length colsdone' = length ws /\
    length rows = length lines /\
    Forall (Forall2 (cell_ok ascii_border) ws) rows.
Proof.
  induction lines as [|line lines IH]; intros colsdone Hlen H.
  - exists [], colsdone. split; [reflexivity|]. split; [exact Hlen|].
    split; [reflexivity|constructor].
  - apply Forall_cons in H as [Hline Hlines].
    destruct (row_loop_ok line 0 colsdone Hlen Hline)
      as (row & cd1 & Hrun1 & Hcd1 & Hrow).
    destruct (IH cd1 Hcd1 Hlines) as (rows & cd2 & Hrun2 & Hcd2 & Hn & Hrows).
    cbn [lines_loop]. rewrite Hrun1. cbn [Py.bind]. rewrite Hrun2.
    exists (row :: rows), cd2. split; [reflexivity|]. split; [exact Hcd2|].
    split; [simpl; now rewrite Hn|]. constructor; assumption.
Qed.

End LoopFacts.

Lemma final_row_ok ascii_border ws : forall colsdone,
  Forall (fun w => 0 <= w) ws ->
  length colsdone = length ws ->
  Forall2 (cell_ok ascii_border) ws (final_row ws colsdone).
Proof.
  unfold final_row. induction ws as [|w ws' IH]; intros colsdone Hw Hlen.
  - constructor.
  - destruct colsdone as [|done colsdone]; [discriminate Hlen|].
    apply Forall_cons in Hw as [Hw Hws]. simpl. constructor.
    + destruct done; simpl; [now apply cell_blank_ok|now apply cell_bottom_ok].
    + apply IH; [exact Hws|]. simpl in Hlen. lia.
Qed.

Lemma top_row_ok ascii_border ws :
  Forall (fun w => 0 <= w) ws ->
  Forall2 (cell_ok ascii_border) ws (List.map cell_top ws).
Proof.
  induction 1 as [|w ws' Hw _ IH]; simpl; constructor.
  - now apply cell_top_ok.
  - exact IH.
Qed.

(** ** Rows and lines *)

Lemma row_width_cons w w' ws :
  row_width (w :: w' :: ws) = w + 2 + 4 + row_width (w' :: ws).
Proof. unfold row_width. rewrite !len_cons. simpl. lia. Qed.

Lemma row_ok ascii_border ws row :
  ws <> [] ->
  Forall2 (cell_ok ascii_border) ws row ->
  exists o, printed (borders ascii_border) (row_width ws) (Py.join sep row) o.
Proof.
  intros Hne H. induction H as [|w cell ws row Hcell Hrow IH]; [congruence|].
  destruct Hcell as (o & Fo & Lo & No).
  destruct Hrow as [|w' cell' ws row Hcell' Hrow].
  - exists o. split; [exact Fo|]. split; [|exact No].
    rewrite Lo. unfold row_width. simpl. unfold Py.len. simpl. lia.
  - destruct IH as (o' & Fo' & Lo' & No'); [discriminate|].
    exists (o ++ sep ++ o'). split; [|split].
    + cbn [Py.join]. apply formats_app; [exact Fo|].
      apply formats_app; [|exact Fo']. now apply formats_plain.
    + rewrite !len_app, Lo, Lo', row_width_cons.
      change (Py.len sep) with 4. lia.
    + rewrite !no_newline_app, No, No'. reflexivity.
Qed.

Lemma lines_ok kwargs W (rows : list (list Py.str)) :
  Forall (fun row => exists o, printed kwargs W (Py.join sep row) o) rows ->
  exists os,
    length os = length rows /\
    Forall (fun o => Py.len o = W /\ no_newline o = true) os /\
    formats kwargs (Py.join [NL] (List.map (Py.join sep) rows))
                   (Py.join [NL] os).
Proof.
  induction 1 as [|row rows (o & Fo & Lo & No) Hrows (os & Hlen & Hos & Fos)].
  - exists []. split; [reflexivity|]. split; [constructor|apply formats_nil].
  - exists (o :: os). split; [simpl; now rewrite Hlen|].
    split; [constructor; [now split|exact Hos]|].
    destruct rows as [|row' rows].
    + destruct os; [exact Fo|discriminate Hlen].
    + destruct os as [|o' os]; [discriminate Hlen|].
      cbn [List.map Py.join] in *. apply formats_app; [exact Fo|].
      apply formats_app; [|exact Fos]. now apply formats_plain.
Qed.

Lemma split_plain o : no_newline o = true -> Py.split NL o = [o].
Proof.
  induction o as [|c o IH]; [reflexivity|].
  cbn [no_newline forallb]. intros [Hc Ho]%andb_true_iff.
  apply negb_true_iff in Hc. cbn [Py.split]. rewrite Hc.
  fold (no_newline o) in Ho. now rewrite (IH Ho).
Qed.

Lemma split_line o rest :
  no_newline o = true ->
  Py.split NL (o ++ NL :: rest) = o :: Py.split NL rest.
Proof.
  induction o as [|c o IH].
  - intros _. cbn [app Py.split]. now rewrite N.eqb_refl.
  - cbn [no_newline forallb]. intros [Hc Ho]%andb_true_iff.
    apply negb_true_iff in Hc. cbn [app Py.split]. rewrite Hc.
    fold (no_newline o) in Ho. now rewrite (IH Ho).
Qed.

Lemma split_join os :
  os <> [] ->
  Forall (fun o => no_newline o = true) os ->
  Py.split NL (Py.join [NL] os) = os.
Proof.
  intros Hne H. induction H as [|o os Ho Hos IH]; [congruence|].
  destruct os as [|o' os].
  - now apply split_plain.
  - cbn [Py.join]. cbn [app]. rewrite split_line by exact Ho.
    f_equal. apply IH. discriminate.
Qed.

Lemma zip_longest_offers columns ws r :
  Forall2 fits columns ws ->
  Forall (fun column => forallb plain_line column = true) columns ->
  Forall2 offer ws (List.map (fun column : list Py.str => column !! r) columns).
Proof.
  induction 1 as [|column w columns ws [Hw Hfit] _ IH]; intros Hp.
  - constructor.
  - apply Forall_cons in Hp as [Hc Hp]. simpl. constructor; [|now apply IH].
    split; [exact Hw|]. destruct (column !! r) as [line|] eqn:E; [|exact I].
    apply list_elem_of_lookup_2, list_elem_of_In in E.
    split.
    + rewrite forallb_forall in Hc. now apply Hc.
    + specialize (Hfit line E). lia.
Qed.

(** [bordered] on columns that each have a line, whose lines have no
    brace and no line break. *)
Lemma bordered_grid columns ascii_border :
  columns <> [] ->
  Forall (fun column => column <> []) columns ->
  Forall (fun column => forallb plain_line column = true) columns ->
  exists ws out,
    widths columns = Py.Ok ws /\
    bordered columns ascii_border = Py.Ok out /\
    length (Py.split NL out) = (max_height columns + 2)%nat /\
    Forall (fun line => Py.len line = row_width ws) (Py.split NL out).
Proof.
  intros Hne Hcols Hplain.
  destruct (widths_ok columns Hcols) as (ws & Hws & Hfit).
  assert (Forall (fun w => 0 <= w) ws) as Hpos.
  { clear -Hfit. induction Hfit as [|c w cs ws [Hw _] _ IH]; constructor; auto. }
  assert (length ws = length columns) as Hlen.
  { symmetry. eapply Forall2_length. exact Hfit. }
  assert (ws <> []) as Hwne.
  { intros ->. destruct columns; [congruence|discriminate Hlen]. }
  destruct (lines_loop_ok ascii_border ws (Py.zip_longest columns)
              (replicate (length columns) false))
    as (rows & cd & Hrun & Hcd & Hn & Hrows).
  { now rewrite length_replicate. }
  { unfold Py.zip_longest. apply List.Forall_forall. intros line Hl.
    apply in_map_iff in Hl as (r & <- & _).
    apply (zip_longest_offers columns ws r); assumption. }
  set (all := List.map cell_top ws :: rows ++ [final_row ws cd]).
  assert (Forall (Forall2 (cell_ok ascii_border) ws) all) as Hall.
  { subst all. constructor; [now apply top_row_ok|].
    apply Forall_app. split; [exact Hrows|].
    constructor; [now apply final_row_ok|constructor]. }
  destruct (lines_ok (borders ascii_border) (row_width ws) all)
    as (os & Hos & Hprinted & Fos).
  { eapply Forall_impl; [exact Hall|]. intros row Hrow. now apply row_ok. }
  exists ws, (Py.join [NL] os). split; [exact Hws|].
  assert (Py.split NL (Py.join [NL] os) = os) as Hsplit.
  { apply split_join.
    - intros ->. discriminate Hos.
    - eapply Forall_impl; [exact Hprinted|]. now intros o [_ H]. }
  split; [|split].
  - unfold bordered, bordered_rows. rewrite Hws. cbn [Py.bind].
    rewrite Hrun. cbn [Py.bind]. fold all. now apply formats_run.
  - rewrite Hsplit, Hos. subst all. simpl. rewrite length_app, Hn. simpl.
    unfold Py.zip_longest. rewrite length_map, length_seq.
    unfold max_height. lia.
  - rewrite Hsplit. eapply Forall_impl; [exact Hprinted|]. now intros o [H _].
Qed.
(** ** The slices of a run *)

(** The slices are determined by the text. *)
Lemma cut_into_unique delims priority emm budget in_text slices :
  cut_into delims priority emm budget in_text slices ->
  forall slices', cut_into delims priority emm budget in_text slices' ->
                  slices' = slices.
Proof.
  induction 1 as [in_text Hshort|in_text cd slices Hlong Hcd _ IH];
    intros slices' H'; inversion H' as [? Hs|? cd' sl' Hl Hcd' Hrest];
    subst; try lia; [reflexivity|].
  rewrite Hcd in Hcd'. injection Hcd' as <-. f_equal. now apply IH.
Qed.

(** The run yields the non-blank slices, escaped when asked, and ends. *)
Lemma pagify_loop_cut_into md delims priority emm budget :
  1 <= budget ->
  priority = true \/ delims <> [] ->
  forall in_text,
  exists slices,
    cut_into delims priority emm budget in_text slices /\
    concat slices = in_text /\
    Forall (fun s => Py.len s <= budget) slices /\
    forall fuel, (length in_text < fuel)%nat ->
      pagify_loop md fuel in_text delims priority emm budget =
      (List.map (page_of md emm)
                (List.filter (fun s => negb (blank s)) slices),
       Exhausted).
Proof.
  intros Hbudget Hdom in_text.
  remember (length in_text) as n eqn:Hn. revert in_text Hn.
  induction n as [n IH] using lt_wf_ind. intros in_text Hn.
  destruct (Z_lt_le_dec budget (Py.len in_text)) as [Hlong|Hshort].
  - destruct (pagify_advances delims priority emm budget Hbudget Hdom
                in_text Hlong) as (cd & Hcd & Hr & Hlen).
    destruct (IH (length (Py.slice_from in_text cd))) with
      (in_text := Py.slice_from in_text cd)
      as (slices & Hcut & Hcat & Hall & Hrun).
    { unfold Py.len in *. lia. }
    { reflexivity. }
    exists (Py.slice_to in_text cd :: slices).
    split; [|split; [|split]].
    + now apply cut_step.
    + simpl. rewrite Hcat. apply slice_to_from. lia.
    + constructor; [|exact Hall]. rewrite len_slice_to; lia.
    + intros [|fuel] Hfuel; [lia|].
      rewrite (pagify_loop_step md delims priority emm budget fuel in_text cd
                 Hlong Hcd).
      rewrite Hrun by (unfold Py.len in *; lia).
      simpl. destruct (blank (Py.slice_to in_text cd)); reflexivity.
  - exists [in_text]. split; [|split; [|split]].
    + now apply cut_last.
    + simpl. apply app_nil_r.
    + constructor; [exact Hshort|constructor].
    + intros [|fuel] Hfuel; [lia|].
      rewrite pagify_loop_short by exact Hshort.
      simpl. destruct (blank in_text); reflexivity.
Qed.

(** * The paginator: claimed properties *)





(** C2 (the code at the failing input): [nine_mentions] has 1992
    characters, so with the default settings it is yielded whole as the
    final page; escaping its nine mentions makes that page 2001
    characters long, above the budget of 1992 and above [page_length]. *)
Theorem pagify_final_page_exceeds_budget md :
  Py.len nine_mentions = 1992 /\
  exists page,
    (forall k, pagify_default md (S k) nine_mentions = ([page], Exhausted)) /\
    Py.len page = 2001.
Proof.
  split; [vm_compute; reflexivity|].
  exists (escape md nine_mentions true false). split.
  - intros k. unfold pagify_default, pagify.
    rewrite pagify_loop_short by (vm_compute; discriminate).
    reflexivity.
  - vm_compute. reflexivity.
Qed.

(** C3 (as stated, refuted): with [page_length = 5] and
    [shorten_by = 8] the working limit is [-3]; no occurrence of the
    newline lies between index 1 and [-3], yet [rfind] counts a negative
    end from the end of the text and the break point is 1, not the
    working limit.  And with no delimiter and without [priority] there
    is no break point at all: [max] of no candidates raises. *)
Lemma closest_delim_negative_limit :
  this_page_len (Py.lit "a" ++ NL :: Py.lit "bcdef") true (5 - 8) = -3 /\
  (forall j, ~ in_range (Py.lit "a" ++ NL :: Py.lit "bcdef") [NL] (-3) j) /\
  closest_delim (Py.lit "a" ++ NL :: Py.lit "bcdef") [[NL]] false (-3)
  = Some 1 /\
  closest_delim (Py.lit "a" ++ NL :: Py.lit "bcdef") [[NL]] true (-3)
  = Some 1 /\
  closest_delim (Py.lit "ab") [] false 1 = None.
Proof.
  split; [reflexivity|]. split; [|repeat split; reflexivity].
  intros j (Hj & Hjd & _). change (Py.len [NL]) with 1 in Hjd. lia.
Qed.

(** C3 (amended): break-point selection, for a working limit
    [limit >= 0] (as it is on every iteration when [page_length] is not
    below [shorten_by]).  An occurrence is in range when it starts at
    index 1 or later and ends at or before the limit.  The candidate of
    a delimiter is its last occurrence in range, [-1] if it has none.
    With [priority] the break point is the last occurrence in range of
    the first delimiter that has one; without it it is the greatest
    occurrence in range over all delimiters; when no delimiter occurs in
    range, and [priority] is set or there is at least one delimiter, it
    is [limit]. *)
Theorem closest_delim_selection in_text delims limit :
  0 <= limit ->
  (forall d,
      (Py.rfind in_text d 1 limit = -1 /\
       forall j, ~ in_range in_text d limit j)
      \/ last_in_range in_text d limit (Py.rfind in_text d 1 limit)) /\
  (forall pre d post i,
      delims = pre ++ d :: post ->
      (forall d' j, In d' pre -> ~ in_range in_text d' limit j) ->
      last_in_range in_text d limit i ->
      closest_delim in_text delims true limit = Some i) /\
  (forall d i,
      In d delims -> in_range in_text d limit i ->
      exists m,
        closest_delim in_text delims false limit = Some m /\
        (exists d', In d' delims /\ last_in_range in_text d' limit m) /\
        (forall d' j, In d' delims -> in_range in_text d' limit j -> j <= m)) /\
  (forall priority,
      priority = true \/ delims <> [] ->
      (forall d j, In d delims -> ~ in_range in_text d limit j) ->
      closest_delim in_text delims priority limit = Some limit).
Proof.
  intros Hlim. split; [|split; [|split]].
  - intros d. apply rfind_spec. exact Hlim.
  - intros pre d post i -> Hpre Hlast.
    now apply closest_delim_priority.
  - intros d i Hd Hi. now apply closest_delim_latest with d i.
  - intros priority Hdom Hnone. now apply closest_delim_hard_cut.
Qed.

(** C4 (as stated, refuted): with [page_length = shorten_by] the loop
    never ends on a non-empty text (the cursor does not move), and
    without delimiters and without [priority] a text longer than the
    budget makes [max] raise [ValueError]. *)
Lemma pagify_can_diverge_or_raise :
  ~ (exists fuel pages,
       pagify md0 fuel (Py.lit "a") default_delims false true 8 8
       = (pages, Exhausted)) /\
  Py.slice_from (Py.lit "a") 0 = Py.lit "a" /\
  pagify md0 2 (Py.lit "ab") [] false true 8 9
  = ([], Raised Py.ValueError).
Proof.
  split; [|split; reflexivity].
  assert (forall fuel,
            pagify md0 fuel (Py.lit "a") default_delims false true 8 8
            = ([], Running)) as H.
  { induction fuel as [|fuel IH]; [reflexivity|].
    unfold pagify in *.
    rewrite (pagify_loop_step md0 default_delims false true (8 - 8) fuel
               (Py.lit "a") 0); [|reflexivity..].
    change (Py.slice_from (Py.lit "a") 0) with (Py.lit "a").
    now rewrite IH. }
  intros (fuel & pages & Hrun). rewrite H in Hrun. discriminate Hrun.
Qed.

(** C4 (amended): when [page_length] exceeds [shorten_by] and there is at
    least one delimiter (or [priority] is set), [pagify] does not raise
    and ends after finitely many pages; on every iteration the break
    point is at least 1, so the remaining text gets strictly shorter. *)
Theorem pagify_terminates md text delims priority escape_mass_mentions
    shorten_by page_length :
  shorten_by < page_length ->
  priority = true \/ delims <> [] ->
  (exists pages, forall k,
      pagify md (S (length text) + k) text delims priority
        escape_mass_mentions shorten_by page_length = (pages, Exhausted)) /\
  (forall in_text,
      page_length - shorten_by < Py.len in_text ->
      exists cd,
        closest_delim in_text delims priority
          (this_page_len in_text escape_mass_mentions
             (page_length - shorten_by)) = Some cd /\
        1 <= cd /\
        Py.len (Py.slice_from in_text cd) < Py.len in_text).
Proof.
  intros Hb Hdom. split.
  - destruct (pagify_loop_segments md delims priority escape_mass_mentions
                (page_length - shorten_by) ltac:(lia) Hdom text)
      as (segs & _ & _ & Hrun).
    eexists. intros k. unfold pagify. apply Hrun. lia.
  - intros in_text Hlong.
    destruct (pagify_advances delims priority escape_mass_mentions
                (page_length - shorten_by) ltac:(lia) Hdom in_text Hlong)
      as (cd & Hcd & Hr & Hlen).
    exists cd. split; [exact Hcd|]. split; [lia|]. lia.
Qed.

Lemma pagify_terminates_witness :
  (exists pages, forall k,
      pagify md0 (S (length (Py.lit "one two")) + k) (Py.lit "one two")
        [[SPACE]] false true 0 4 = (pages, Exhausted)) /\
  (forall in_text,
      4 - 0 < Py.len in_text ->
      exists cd,
        closest_delim in_text [[SPACE]] false
          (this_page_len in_text true (4 - 0)) = Some cd /\
        1 <= cd /\
        Py.len (Py.slice_from in_text cd) < Py.len in_text).
Proof.
  apply (pagify_terminates md0 (Py.lit "one two") [[SPACE]] false true 0 4).
  - lia.
  - right. discriminate.
Defined.

(** C8: a text that fits the budget yields no page when it is blank
    (empty or whitespace only) and otherwise exactly one page, the text
    itself, escaped when [escape_mass_mentions] is set. *)
Theorem pagify_short_text md T delims priority escape_mass_mentions
    shorten_by page_length k :
  Py.len T <= page_length - shorten_by ->
  pagify md (S k) T delims priority escape_mass_mentions shorten_by
    page_length =
  (if blank T then []
   else [if escape_mass_mentions then escape md T true false else T],
   Exhausted).
Proof.
  intros H. unfold pagify. now apply pagify_loop_short.
Qed.

Lemma pagify_short_text_witness :
  pagify md0 1 (Py.lit "@here hi") default_delims false true 8 2000 =
  ([at_zw_here ++ Py.lit " hi"], Exhausted) /\
  pagify md0 1 (Py.lit "  ") default_delims false true 8 2000 =
  ([], Exhausted).
Proof.
  split.
  - rewrite (pagify_short_text md0 (Py.lit "@here hi") default_delims false
               true 8 2000 0); [reflexivity|vm_compute; discriminate].
  - rewrite (pagify_short_text md0 (Py.lit "  ") default_delims false
               true 8 2000 0); [reflexivity|vm_compute; discriminate].
Defined.

(** C10: escaping is applied to each slice after the cut.  With the
    default settings the text [mention_across_cut] is cut inside its
    "@everyone": the two pages end with "@e" and start with "veryone",
    neither contains a zero-width space, and their concatenation still
    reads "@everyone". *)
Theorem pagify_cut_mention_not_escaped md :
  exists T p1 p2,
    pagify_default md 2 T = ([p1; p2], Exhausted) /\
    Py.contains T at_everyone = true /\
    p1 = replicate 1990 97%N ++ Py.lit "@e" /\
    p2 = Py.lit "veryone" /\
    Py.contains (p1 ++ p2) at_everyone = true /\
    Py.contains (p1 ++ p2) [ZWSP] = false.
Proof.
  exists mention_across_cut, (replicate 1990 97%N ++ Py.lit "@e"),
         (Py.lit "veryone").
  split; [vm_compute; reflexivity|].
  split; [vm_compute; reflexivity|].
  split; [reflexivity|]. split; [reflexivity|].
  split; vm_compute; reflexivity.
Qed.

Lemma closest_delim_selection_witness :
  0 <= 4 /\
  closest_delim (Py.lit "a b c") [[NL]; [SPACE]] true 4 = Some 3 /\
  closest_delim (Py.lit "a b c") [[NL]; [SPACE]] false 4 = Some 3 /\
  closest_delim (Py.lit "a b c") [[NL]] false 4 = Some 4.
Proof.
  destruct (closest_delim_selection (Py.lit "a b c") [[NL]; [SPACE]] 4
              ltac:(lia)) as (_ & Hp & Hn & _).
  destruct (closest_delim_selection (Py.lit "a b c") [[NL]] 4
              ltac:(lia)) as (_ & _ & _ & Hc).
  assert (forall j, ~ in_range (Py.lit "a b c") [NL] 4 j) as Hnl.
  { intros j (Hj & Hjd & _ & _ & Ho). change (Py.len [NL]) with 1 in Hjd.
    assert (j = 1 \/ j = 2 \/ j = 3) as [->|[->| ->]] by lia;
      discriminate Ho. }
  assert (last_in_range (Py.lit "a b c") [SPACE] 4 3) as Hlast.
  { split.
    - split; [lia|]. split; [vm_compute; discriminate|].
      split; [lia|]. split; [vm_compute; discriminate|reflexivity].
    - intros j (_ & Hjd & _). change (Py.len [SPACE]) with 1 in Hjd. lia. }
  split; [lia|]. split; [|split].
  - apply (Hp [[NL]] [SPACE] [] 3); [reflexivity| |exact Hlast].
    intros d' j [<-|[]]. apply Hnl.
  - destruct (Hn [SPACE] 3) as (m & -> & (d' & Hd' & Hm) & Hmax).
    + right. now left.
    + apply Hlast.
    + f_equal. apply Z.le_antisymm.
      * destruct Hd' as [<-|[<-|[]]]; [destruct Hm as [Hm _]; now apply Hnl in Hm|].
        destruct Hm as [(_ & Hm & _) _]. change (Py.len [SPACE]) with 1 in Hm.
        lia.
      * apply (Hmax [SPACE] 3); [right; now left|apply Hlast].
  - apply Hc; [right; discriminate|]. intros d j [<-|[]]. apply Hnl.
Defined.

(** * The escaper: claimed properties *)

(** C9: in mass-mention mode [escape] turns "@everyone hi" into
    "@" U+200B "everyone hi"; no "@everyone" and no "@here" is left in
    its result; the result differs from the text only by inserted
    U+200B characters; a text that contains neither "@everyone" nor
    "@here" is returned unchanged; every occurrence of "@everyone" is
    replaced by "@" U+200B "everyone" and every occurrence of "@here" by
    "@" U+200B "here", the text before and the text after the
    occurrence being escaped on their own; and no other function does
    all this. *)
Theorem escape_mass_mentions_spec md :
  escape md (Py.lit "@everyone hi") true false
  = 64%N :: ZWSP :: Py.lit "everyone hi" /\
  (forall text,
      Py.contains (escape md text true false) at_everyone = false /\
      Py.contains (escape md text true false) at_here = false /\
      List.filter (fun c => negb (N.eqb c ZWSP)) (escape md text true false)
      = List.filter (fun c => negb (N.eqb c ZWSP)) text) /\
  (forall text,
      Py.contains text at_everyone = false ->
      Py.contains text at_here = false ->
      escape md text true false = text) /\
  (forall pre post,
      escape md (pre ++ Py.lit "@everyone" ++ post) true false
      = escape md pre true false ++
        (64%N :: ZWSP :: Py.lit "everyone") ++ escape md post true false) /\
  (forall pre post,
      escape md (pre ++ Py.lit "@here" ++ post) true false
      = escape md pre true false ++
        (64%N :: ZWSP :: Py.lit "here") ++ escape md post true false) /\
  (forall f : Py.str -> Py.str,
      (forall text,
          Py.contains text at_everyone = false ->
          Py.contains text at_here = false -> f text = text) ->
      (forall pre post,
          f (pre ++ Py.lit "@everyone" ++ post)
          = f pre ++ (64%N :: ZWSP :: Py.lit "everyone") ++ f post) ->
      (forall pre post,
          f (pre ++ Py.lit "@here" ++ post)
          = f pre ++ (64%N :: ZWSP :: Py.lit "here") ++ f post) ->
      forall text, f text = escape md text true false).
Proof.
  split; [reflexivity|]. split; [|split; [|split; [|split]]].
  - intros text. split; [apply escape_no_everyone|].
    split; [apply escape_no_here|apply escape_only_inserts].
  - intros text. apply escape_absent.
  - intros pre post. exact (escape_everyone md pre post).
  - intros pre post. exact (escape_here md pre post).
  - intros f Hid He Hh. exact (escape_determined md f Hid He Hh).
Qed.

Lemma escape_mass_mentions_spec_witness :
  escape md0 (Py.lit "hello @there") true false = Py.lit "hello @there".
Proof.
  apply (proj1 (proj2 (proj2 (escape_mass_mentions_spec md0))));
    reflexivity.
Defined.

(** * The bordered layout: claimed properties *)

Lemma widths_spec columns : forall ws,
  widths columns = Py.Ok ws ->
  Forall2 (fun column width =>
             Py.max (List.map Py.len column) = Some (width - 9)) columns ws.
Proof.
  induction columns as [|column columns IH]; intros ws H; cbn [widths] in H.
  - injection H as <-. constructor.
  - destruct (Py.max (List.map Py.len column)) as [m|] eqn:Hm;
      [|discriminate H].
    destruct (widths columns) as [ws'|]; [|discriminate H].
    injection H as <-. constructor; [|now apply IH].
    rewrite Hm. f_equal. lia.
Qed.

(** C5 (the code at the failing input): the single line "{{" has two
    characters; the column gets the inner width 11 and a row of
    11 + 2 = 13 characters, and the line is padded with
    11 - 2 = 9 spaces.  The block then goes through [format], which
    prints the two braces as one: the text row comes out with 12
    characters between borders of 13. *)
Theorem bordered_braces_not_rectangular :
  widths [[Py.lit "{{"]] = Py.Ok [11] /\
  row_width [11] = 13 /\
  bordered_rows [[Py.lit "{{"]]
  = Py.Ok [[cell_top 11]; [cell_text 11 (Py.lit "{{")]; [cell_bottom 11]] /\
  cell_text 11 (Py.lit "{{") = Py.lit "{VT}{{         {VT}" /\
  exists out,
    bordered [[Py.lit "{{"]] true = Py.Ok out /\
    Py.split NL out
    = [Py.lit "+-----------+"; Py.lit "|{         |"; Py.lit "+-----------+"] /\
    List.map Py.len (Py.split NL out) = [13; 12; 13].
Proof.
  split; [reflexivity|]. split; [reflexivity|].
  split; [vm_compute; reflexivity|]. split; [vm_compute; reflexivity|].
  eexists. split; [vm_compute; reflexivity|].
  split; vm_compute; reflexivity.
Qed.

(** X20: when there is at least one column, every column has at
    least one line and no line contains a brace or a line break,
    [bordered] returns a block whose lines all have the same length: each
    column takes its inner width (its longest line plus 9) plus 2, and
    consecutive columns are separated by 4 spaces.  The block has one
    line more than the tallest column has rows, plus the top border. *)
Theorem bordered_rectangular columns ascii_border :
  columns <> [] ->
  Forall (fun column => column <> []) columns ->
  Forall (fun column => forallb plain_line column = true) columns ->
  exists ws out,
    widths columns = Py.Ok ws /\
    Forall2 (fun column width =>
               Py.max (List.map Py.len column) = Some (width - 9)) columns ws /\
    bordered columns ascii_border = Py.Ok out /\
    length (Py.split NL out) = (max_height columns + 2)%nat /\
    Forall (fun line => Py.len line = row_width ws) (Py.split NL out).
Proof.
  intros Hne Hcols Hplain.
  destruct (bordered_grid columns ascii_border Hne Hcols Hplain)
    as (ws & out & Hws & Hout & Hn & Hall).
  exists ws, out. split; [exact Hws|]. split; [now apply widths_spec|].
  split; [exact Hout|]. split; [exact Hn|exact Hall].
Qed.

Lemma bordered_rectangular_witness :
  exists ws out,
    widths two_columns = Py.Ok ws /\
    Forall2 (fun column width =>
               Py.max (List.map Py.len column) = Some (width - 9))
            two_columns ws /\
    bordered two_columns false = Py.Ok out /\
    length (Py.split NL out) = (max_height two_columns + 2)%nat /\
    Forall (fun line => Py.len line = row_width ws) (Py.split NL out).
Proof.
  apply (bordered_rectangular two_columns false).
  - discriminate.
  - repeat constructor; discriminate.
  - repeat constructor.
Defined.

(** C6 (as stated, refuted): on a single column without lines
    [bordered] raises [ValueError], with either set of glyphs: [max] is
    applied to an empty sequence when the widths are computed. *)
Lemma bordered_empty_column_raises :
  bordered [[]] false = Py.Raise Py.ValueError /\
  bordered [[]] true = Py.Raise Py.ValueError.
Proof. split; reflexivity. Qed.

(** C6 (amended): [bordered] raises [ValueError] as soon as one of the
    columns has height 0; it returns no block. *)
Theorem bordered_height_zero_raises columns ascii_border :
  In [] columns ->
  bordered columns ascii_border = Py.Raise Py.ValueError.
Proof.
  intros H. unfold bordered, bordered_rows.
  now rewrite (widths_raises columns H).
Qed.

Lemma bordered_height_zero_raises_witness :
  bordered [[Py.lit "a"]; []] true = Py.Raise Py.ValueError.
Proof.
  apply (bordered_height_zero_raises [[Py.lit "a"]; []] true).
  right. left. reflexivity.
Defined.

(** C7 (as stated, refuted): in the block of [two_columns] the bottom
    border of the first column is on row 3, the last one, and the only
    line of the second column is on row 1; the first column does not
    show a bottom border one row before the content of the second
    column ends. *)
Lemma two_columns_first_column_closes_last :
  exists rows,
    bordered_rows two_columns = Py.Ok rows /\
    rows_where is_bottom rows 0 = [3%nat] /\
    rows_where is_text rows 1 = [1%nat] /\
    ~ (exists r, In r (rows_where is_bottom rows 0) /\
                 In (S r) (rows_where is_text rows 1)).
Proof.
  eexists. split; [vm_compute; reflexivity|].
  split; [vm_compute; reflexivity|]. split; [vm_compute; reflexivity|].
  intros (r & Hr & Hs). vm_compute in Hr, Hs.
  destruct Hr as [<-|[]]. destruct Hs as [Hs|[]]. discriminate Hs.
Qed.

(** C7 (amended): with ASCII borders the block of [two_columns] is the
    four lines below, each of 31 characters.  The widths are 11 and 12.
    It is the second column that closes first: its bottom border is on
    row 2, next to the last line of the first column and one row before
    the bottom border of the first column, which is on the last row.
    The cell of the second column is padded to its own width, 12, that
    is 3 + 9. *)
Theorem bordered_two_columns :
  widths two_columns = Py.Ok [11; 12] /\
  bordered_rows two_columns =
  Py.Ok [ [cell_top 11; cell_top 12];
          [cell_text 11 (Py.lit "a"); cell_text 12 (Py.lit "ccc")];
          [cell_text 11 (Py.lit "bb"); cell_bottom 12];
          [cell_bottom 11; cell_blank 12] ] /\
  bordered two_columns true =
  Py.Ok (Py.join [NL]
           [ Py.lit "+-----------+    +------------+";
             Py.lit "|a          |    |ccc         |";
             Py.lit "|bb         |    +------------+";
             Py.lit "+-----------+                  " ]) /\
  (exists out,
      bordered two_columns true = Py.Ok out /\
      Forall (fun line => Py.len line = 31) (Py.split NL out)) /\
  (exists rows,
      bordered_rows two_columns = Py.Ok rows /\
      rows_where is_text rows 0 = [1%nat; 2%nat] /\
      rows_where is_bottom rows 1 = [2%nat] /\
      rows_where is_bottom rows 0 = [3%nat]) /\
  Py.len (Py.lit "ccc") + 9 = 12.
Proof.
  split; [reflexivity|]. split; [vm_compute; reflexivity|].
  split; [vm_compute; reflexivity|]. split; [|split; [|reflexivity]].
  - eexists. split; [vm_compute; reflexivity|].
    vm_compute. repeat constructor.
  - eexists. split; [vm_compute; reflexivity|].
    split; [vm_compute; reflexivity|].
    split; vm_compute; reflexivity.
Qed.

(** * Further properties of the paginator *)

(** Whatever holds of every non-blank escaped slice holds of every page,
    however the run goes on. *)
Lemma pagify_loop_pages_all md delims priority emm budget
    (P : Py.str -> Prop) :
  (forall s, nonblank (page_of md emm s) = true -> P (page_of md emm s)) ->
  forall fuel in_text,
    Forall P (pagify_loop md fuel in_text delims priority emm budget).1.
Proof.
  intros HP. induction fuel as [|fuel IH]; intros in_text; [constructor|].
  cbn [pagify_loop]. destruct (budget <? Py.len in_text).
  - destruct (closest_delim _ _ _ _) as [cd|]; [|constructor].
    specialize (IH (Py.slice_from in_text cd)).
    destruct (pagify_loop md fuel _ _ _ _ _) as [pages o]. cbn [fst] in *.
    change (if emm then escape md (Py.slice_to in_text cd) true false
            else Py.slice_to in_text cd)
      with (page_of md emm (Py.slice_to in_text cd)).
    destruct (nonblank (page_of md emm (Py.slice_to in_text cd))) eqn:E;
      [|exact IH].
    constructor; [now apply HP|exact IH].
  - cbn [fst].
    change (if emm then escape md in_text true false else in_text)
      with (page_of md emm in_text).
    destruct (nonblank in_text) eqn:E; [|constructor].
    constructor; [|constructor]. apply HP.
    unfold page_of. destruct emm; [|exact E]. now rewrite nonblank_escape.
Qed.

(** X1: No page is blank: every page yielded, at any point of any run, has a
    character that is not whitespace. *)
Theorem pagify_pages_not_blank md fuel text delims priority
    escape_mass_mentions shorten_by page_length :
  Forall (fun p => blank p = false /\ 1 <= Py.len p)
    (pagify md fuel text delims priority escape_mass_mentions shorten_by
       page_length).1.
Proof.
  unfold pagify. apply pagify_loop_pages_all. intros s H.
  rewrite nonblank_blank in H. apply negb_true_iff in H. split; [exact H|].
  destruct (page_of md escape_mass_mentions s); [discriminate H|].
  rewrite len_cons. pose proof (len_nonneg l). lia.
Qed.

(** X2: With [escape_mass_mentions] no page contains "@everyone" or
    "@here", at any point of any run. *)
Theorem pagify_pages_without_mentions md fuel text delims priority
    shorten_by page_length :
  Forall (fun p => Py.contains p at_everyone = false /\
                   Py.contains p at_here = false)
    (pagify md fuel text delims priority true shorten_by page_length).1.
Proof.
  unfold pagify. apply pagify_loop_pages_all. intros s _.
  unfold page_of. split.
  - exact (escape_no_everyone md s).
  - exact (escape_no_here md s).
Qed.


(** X4: Without escaping every page fits the budget. *)
Theorem pagify_pages_fit_without_escaping md text delims priority
    shorten_by page_length :
  shorten_by < page_length ->
  priority = true \/ delims <> [] ->
  exists pages,
    (forall k,
        pagify md (S (length text) + k) text delims priority false
          shorten_by page_length = (pages, Exhausted)) /\
    Forall (fun p => Py.len p <= page_length - shorten_by) pages.
Proof.
  intros Hb Hdom.
  destruct (pagify_loop_pages md delims priority false
              (page_length - shorten_by) ltac:(lia) Hdom text)
    as (segs & last & _ & Hall & Hlast & Hrun).
  eexists. split.
  - intros k. unfold pagify. apply Hrun. lia.
  - apply List.Forall_forall. intros p Hp.
    apply in_map_iff in Hp as (s & <- & Hs).
    apply List.filter_In in Hs as [Hs _].
    apply in_app_iff in Hs as [Hs|[<-|[]]]; [|exact Hlast].
    rewrite List.Forall_forall in Hall. now apply Hall.
Qed.

Lemma pagify_pages_fit_without_escaping_witness :
  exists pages,
    (forall k,
        pagify md0 (S (length (Py.lit "one @here two")) + k)
          (Py.lit "one @here two") [[SPACE]] false false 0 6
        = (pages, Exhausted)) /\
    Forall (fun p => Py.len p <= 6 - 0) pages.
Proof.
  apply (pagify_pages_fit_without_escaping md0 (Py.lit "one @here two")
           [[SPACE]] false 0 6).
  - lia.
  - right. discriminate.
Defined.

(** X5: Every page takes at least one character of the text: there are at
    most [len(text)] pages. *)
Theorem pagify_page_count md text delims priority escape_mass_mentions
    shorten_by page_length :
  shorten_by < page_length ->
  priority = true \/ delims <> [] ->
  exists pages,
    (forall k,
        pagify md (S (length text) + k) text delims priority
          escape_mass_mentions shorten_by page_length = (pages, Exhausted)) /\
    (length pages <= length text)%nat.
Proof.
  intros Hb Hdom. unfold pagify.
  set (budget := page_length - shorten_by).
  assert (1 <= budget) as Hbudget by (subst budget; lia).
  clearbody budget. clear Hb.
  remember (length text) as n eqn:Hn. revert text Hn.
  induction n as [n IH] using lt_wf_ind. intros text Hn.
  destruct (Z_lt_le_dec budget (Py.len text)) as [Hlong|Hshort].
  - destruct (pagify_advances delims priority escape_mass_mentions budget
                Hbudget Hdom text Hlong) as (cd & Hcd & Hr & Hlen).
    destruct (IH (length (Py.slice_from text cd))) with
      (text := Py.slice_from text cd) as (pages & Hrun & Hcount).
    { unfold Py.len in *. lia. }
    { reflexivity. }
    exists (if blank (Py.slice_to text cd) then pages
            else page_of md escape_mass_mentions (Py.slice_to text cd)
                 :: pages).
    split.
    + intros k. cbn [Nat.add].
      rewrite (pagify_loop_step md delims priority escape_mass_mentions
                 budget _ text cd Hlong Hcd).
      replace (n + k)%nat
        with (S (length (Py.slice_from text cd))
              + (n + k - S (length (Py.slice_from text cd))))%nat
        by (unfold Py.len in *; lia).
      now rewrite Hrun.
    + unfold Py.len in *.
      destruct (blank (Py.slice_to text cd)); simpl; lia.
  - exists (if blank text then []
            else [page_of md escape_mass_mentions text]).
    split.
    + intros k. cbn [Nat.add]. now apply pagify_loop_short.
    + subst n. destruct text as [|c text]; [simpl; lia|].
      destruct (blank (c :: text)); simpl; lia.
Qed.

Lemma pagify_page_count_witness :
  exists pages,
    (forall k,
        pagify md0 (S (length (Py.lit "a b")) + k) (Py.lit "a b")
          [[SPACE]] false true 0 1 = (pages, Exhausted)) /\
    (length pages <= length (Py.lit "a b"))%nat.
Proof.
  apply (pagify_page_count md0 (Py.lit "a b") [[SPACE]] false true 0 1).
  - lia.
  - right. discriminate.
Defined.

(** X6: A break point is either the working limit (a hard cut) or an
    occurrence in range of one of the delimiters; in that case the
    delimiter is not consumed: the rest of the text starts with it. *)
Theorem closest_delim_keeps_delimiter in_text delims priority limit cd :
  0 <= limit ->
  closest_delim in_text delims priority limit = Some cd ->
  cd = limit \/
  exists d, In d delims /\ in_range in_text d limit cd /\
            Py.startswith (Py.slice_from in_text cd) d = true.
Proof.
  intros Hlim H. unfold closest_delim in H.
  set (found := List.map (fun d => Py.rfind in_text d 1 limit) delims) in *.
  assert (forall c, In c found -> 0 < c ->
            exists d, In d delims /\ in_range in_text d limit c /\
                      Py.startswith (Py.slice_from in_text c) d = true)
    as Hfound.
  { intros c Hc Hpos. apply in_map_iff in Hc as (d & <- & Hd).
    destruct (found_positive in_text limit Hlim d Hpos) as [Hin _].
    exists d. split; [exact Hd|]. split; [exact Hin|].
    destruct Hin as (H1 & _ & H0 & _ & Ho).
    rewrite slice_from_drop by lia. now apply startswith_spec. }
  assert (forall c, In c found -> c = -1 \/ 0 < c) as Hsign.
  { intros c Hc. apply in_map_iff in Hc as (d & <- & Hd).
    destruct (rfind_range in_text d limit Hlim); [now left|right; lia]. }
  destruct priority.
  - injection H as <-.
    destruct (next_positive_spec found (-1))
      as [[-> _]|(pre & post & Hxs & Hr & _)]; [now left|].
    destruct (Py.next_positive found (-1) =? -1) eqn:E;
      [apply Z.eqb_eq in E; lia|].
    right. apply Hfound; [|exact Hr]. rewrite Hxs at 2. apply in_elt.
  - destruct (Py.max found) as [m|] eqn:Hm; [|discriminate H].
    injection H as <-. apply py_max_spec in Hm as [Hin _].
    destruct (m =? -1) eqn:E; [now left|]. apply Z.eqb_neq in E.
    right. destruct (Hsign m Hin); [congruence|]. now apply Hfound.
Qed.

Lemma closest_delim_keeps_delimiter_witness :
  3 = 4 \/
  exists d, In d [[NL]; [SPACE]] /\ in_range (Py.lit "a b c") d 4 3 /\
            Py.startswith (Py.slice_from (Py.lit "a b c") 3) d = true.
Proof.
  apply (closest_delim_keeps_delimiter (Py.lit "a b c") [[NL]; [SPACE]]
           false 4 3).
  - lia.
  - reflexivity.
Defined.

(** X7: With [page_length = shorten_by] the budget is 0 and [pagify] hangs
    on every non-empty text: it yields nothing and never ends. *)
Theorem pagify_zero_budget_never_ends md text delims priority
    escape_mass_mentions n fuel :
  text <> [] ->
  priority = true \/ delims <> [] ->
  pagify md fuel text delims priority escape_mass_mentions n n
  = ([], Running).
Proof.
  intros Hne Hdom. unfold pagify. rewrite Z.sub_diag.
  assert (0 < Py.len text) as Hlen.
  { destruct text; [congruence|]. rewrite len_cons.
    pose proof (len_nonneg text). lia. }
  induction fuel as [|fuel IH]; [reflexivity|].
  pose proof (this_page_len_nonneg text escape_mass_mentions 0 ltac:(lia))
    as Hlim.
  rewrite (pagify_loop_step md delims priority escape_mass_mentions 0 fuel
             text 0 Hlen).
  - rewrite slice_from_drop, slice_to_take by lia.
    change (Z.to_nat 0) with 0%nat. rewrite drop_0, IH. reflexivity.
  - replace (this_page_len text escape_mass_mentions 0) with 0 by lia.
    apply closest_delim_hard_cut; [lia|exact Hdom|].
    intros d j _ (Hj & Hjd & _). pose proof (len_nonneg d). lia.
Qed.

Lemma pagify_zero_budget_never_ends_witness :
  pagify md0 5 (Py.lit "hello") default_delims false true 8 8
  = ([], Running).
Proof.
  apply (pagify_zero_budget_never_ends md0 (Py.lit "hello") default_delims
           false true 8 5).
  - discriminate.
  - right. discriminate.
Defined.

(** X8: Without delimiters and without [priority], a text longer than the
    budget makes [pagify] raise [ValueError] before any page. *)
Theorem pagify_no_delims_raises md text escape_mass_mentions shorten_by
    page_length fuel :
  page_length - shorten_by < Py.len text ->
  pagify md (S fuel) text [] false escape_mass_mentions shorten_by
    page_length = ([], Raised Py.ValueError).
Proof.
  intros H. unfold pagify. now apply pagify_loop_raises.
Qed.

Lemma pagify_no_delims_raises_witness :
  pagify md0 1 (Py.lit "abcdef") [] false true 0 5
  = ([], Raised Py.ValueError).
Proof.
  apply (pagify_no_delims_raises md0 (Py.lit "abcdef") true 0 5 0).
  vm_compute. reflexivity.
Defined.

(** * Further properties of the escaper *)

(** X10: Escaping mass mentions twice is escaping them once. *)
Theorem escape_idempotent md text :
  escape md (escape md text true false) true false
  = escape md text true false.
Proof.
  apply escape_absent; [apply escape_no_everyone|apply escape_no_here].
Qed.

Lemma count_whole s sub :
  sub <> [] -> Py.count s sub 0 (Py.len s) = Py.count_scan sub 0 s.
Proof.
  intros Hsub. unfold Py.count.
  pose proof (len_nonneg s) as Hs.
  rewrite adjust_end_nonneg by lia. rewrite Z.min_id.
  change (Py.adjust_start 0 (Py.len s)) with 0. rewrite Z.sub_0_r.
  destruct (count_scan_bound sub s Hsub) as [H0 H1].
  destruct (Py.len s <? Py.len sub) eqn:E.
  - apply Z.ltb_lt in E. nia.
  - destruct sub; [congruence|]. unfold Py.len. rewrite Nat2Z.id.
    simpl drop. now rewrite firstn_all.
Qed.

(** X11: Escaping makes the text longer by one character for each
    "@everyone" and each "@here" that [str.count] finds in it. *)
Theorem escape_length md text :
  Py.len (escape md text true false) =
  Py.len text + Py.count text at_everyone 0 (Py.len text)
  + Py.count text at_here 0 (Py.len text).
Proof.
  rewrite !count_whole by discriminate. apply len_escape.
Qed.

(** * Further properties of the bordered layout *)

Lemma lookup_map {A B} (f : A -> B) (l : list A) i :
  List.map f l !! i = option_map f (l !! i).
Proof.
  revert i. induction l as [|x l IH]; intros [|i]; simpl; try reflexivity.
  apply IH.
Qed.

Lemma Forall2_map_same {A B C} (R : B -> C -> Prop) (f : A -> B)
    (g : A -> C) (l : list A) :
  (forall x, In x l -> R (f x) (g x)) ->
  Forall2 R (List.map f l) (List.map g l).
Proof.
  induction l as [|x l IH]; intros H; simpl; constructor.
  - apply H. now left.
  - apply IH. intros y Hy. apply H. now right.
Qed.

Lemma max_height_ge columns (column : list Py.str) :
  In column columns -> (length column <= max_height columns)%nat.
Proof.
  unfold max_height. induction columns as [|c columns IH]; [intros []|].
  intros [->|H]; simpl; [lia|]. specialize (IH H). lia.
Qed.

(** Processing row [r] from column [length pre_cd] on: before the row a
    column is marked done when it is shorter than [r], after it when it
    is shorter than [r + 1]. *)
Lemma row_loop_layout r : forall cols wsuf pre_ws pre_cd,
  length pre_ws = length pre_cd ->
  length wsuf = length cols ->
  row_loop (pre_ws ++ wsuf) (length pre_cd)
    (List.map (fun column : list Py.str => column !! r) cols)
    (pre_cd ++ List.map (fun column => (length column <? r)%nat) cols)
  = Py.Ok
      (List.map (fun '(width, column) => cell_at width column r)
                (zip wsuf cols),
       pre_cd ++ List.map (fun column => (length column <? S r)%nat) cols).
Proof.
  induction cols as [|column cols IH]; intros wsuf pre_ws pre_cd Hpre Hlen.
  - destruct wsuf; [reflexivity|discriminate Hlen].
  - destruct wsuf as [|w wsuf]; [discriminate Hlen|].
    injection Hlen as Hlen.
    assert ((pre_ws ++ w :: wsuf) !! length pre_cd = Some w) as Hw
      by (apply list_lookup_middle; lia).
    cbn [List.map row_loop]. rewrite Hw.
    rewrite (list_lookup_middle pre_cd _ _ (length pre_cd) eq_refl).
    assert (forall flag,
      row_loop (pre_ws ++ w :: wsuf) (S (length pre_cd))
        (List.map (fun column : list Py.str => column !! r) cols)
        (pre_cd ++ flag
           :: List.map (fun column => (length column <? r)%nat) cols)
      = Py.Ok
          (List.map (fun '(width, column) => cell_at width column r)
                    (zip wsuf cols),
           pre_cd ++ flag
             :: List.map (fun column => (length column <? S r)%nat) cols))
      as Hrest.
    { intros flag.
      specialize (IH wsuf (pre_ws ++ [w]) (pre_cd ++ [flag])).
      rewrite !length_app, <- !app_assoc in IH. simpl in IH.
      rewrite !Nat.add_1_r in IH. apply IH; lia. }
    cbn [zip zip_with List.map].
    destruct (column !! r) as [line|] eqn:E.
    + pose proof (lookup_lt_Some _ _ _ E) as Hlt.
      assert (cell_at w column r = cell_text w line) as ->
        by (unfold cell_at; now rewrite E).
      assert ((length column <? r)%nat = false) as -> by
        (apply Nat.ltb_ge; lia).
      assert ((length column <? S r)%nat = false) as -> by
        (apply Nat.ltb_ge; lia).
      rewrite Hrest. reflexivity.
    + pose proof (proj1 (lookup_ge_None _ _) E) as Hge.
      assert ((length column <? S r)%nat = true) as -> by
        (apply Nat.ltb_lt; lia).
      destruct (length column <? r)%nat eqn:F.
      * apply Nat.ltb_lt in F.
        assert (cell_at w column r = cell_blank w) as ->.
        { unfold cell_at. rewrite E.
          now assert ((length column =? r)%nat = false) as -> by
            (apply Nat.eqb_neq; lia). }
        cbn [negb]. rewrite Hrest. reflexivity.
      * apply Nat.ltb_ge in F.
        assert (cell_at w column r = cell_bottom w) as ->.
        { unfold cell_at. rewrite E.
          now assert ((length column =? r)%nat = true) as -> by
            (apply Nat.eqb_eq; lia). }
        cbn [negb].
        replace (<[length pre_cd:=true]>
                   (pre_cd ++ false
                      :: List.map (fun column0 : list Py.str =>
                                     (length column0 <? r)%nat) cols))
          with (pre_cd ++ true
                  :: List.map (fun column0 : list Py.str =>
                                 (length column0 <? r)%nat) cols).
        2:{ rewrite <- (Nat.add_0_r (length pre_cd)) at 1.
            now rewrite insert_app_r. }
        rewrite Hrest. reflexivity.
Qed.

Lemma lines_loop_layout columns ws : forall n r0,
  length ws = length columns ->
  lines_loop ws
    (List.map (fun r => List.map (fun column : list Py.str => column !! r)
                                 columns) (seq r0 n))
    (List.map (fun column => (length column <? r0)%nat) columns)
  = Py.Ok
      (List.map (fun r => List.map (fun '(width, column) =>
                                      cell_at width column r)
                                   (zip ws columns)) (seq r0 n),
       List.map (fun column => (length column <? r0 + n)%nat) columns).
Proof.
  induction n as [|n IH]; intros r0 Hlen.
  - simpl. now rewrite Nat.add_0_r.
  - cbn [seq List.map lines_loop].
    pose proof (row_loop_layout r0 columns ws [] [] eq_refl Hlen) as Hrow.
    simpl in Hrow. rewrite Hrow. cbn [Py.bind].
    rewrite (IH (S r0) Hlen). cbn [Py.bind].
    now rewrite Nat.add_succ_r.
Qed.

Lemma final_row_layout columns H : forall ws,
  length ws = length columns ->
  (forall column, In column columns -> (length column <= H)%nat) ->
  final_row ws (List.map (fun column => (length column <? H)%nat) columns)
  = List.map (fun '(width, column) => cell_at width column H)
             (zip ws columns).
Proof.
  unfold final_row.
  induction columns as [|column columns IH]; intros [|w ws] Hlen Hle;
    try discriminate Hlen; [reflexivity|].
  injection Hlen as Hlen. simpl. f_equal.
  - specialize (Hle column (or_introl eq_refl)). unfold cell_at.
    rewrite (proj2 (lookup_ge_None column H)) by lia.
    destruct (length column <? H)%nat eqn:F.
    + apply Nat.ltb_lt in F.
      now assert ((length column =? H)%nat = false) as -> by
        (apply Nat.eqb_neq; lia).
    + apply Nat.ltb_ge in F.
      now assert ((length column =? H)%nat = true) as -> by
        (apply Nat.eqb_eq; lia).
  - apply IH; [exact Hlen|]. intros c Hc. apply Hle. now right.
Qed.

Lemma replicate_not_done (columns : list (list Py.str)) :
  replicate (length columns) false
  = List.map (fun column => (length column <? 0)%nat) columns.
Proof. induction columns as [|c cs IH]; simpl; [reflexivity|now rewrite IH]. Qed.

(** X12: The layout of [bordered]: below the top border, row [r] shows for
    every column its line [r] while it has one, its bottom border on the
    row just after its last line, and blanks further down.  The row
    appended after the loop follows the same rule. *)
Theorem bordered_rows_layout columns :
  Forall (fun column => column <> []) columns ->
  exists ws,
    widths columns = Py.Ok ws /\
    length ws = length columns /\
    bordered_rows columns =
    Py.Ok (List.map cell_top ws
           :: List.map (fun r => List.map (fun '(width, column) =>
                                             cell_at width column r)
                                          (zip ws columns))
                       (seq 0 (S (max_height columns)))).
Proof.
  intros Hcols. destruct (widths_ok columns Hcols) as (ws & Hws & Hfit).
  assert (length ws = length columns) as Hlen
    by (symmetry; eapply Forall2_length; exact Hfit).
  exists ws. split; [exact Hws|]. split; [exact Hlen|].
  unfold bordered_rows. rewrite Hws. cbn [Py.bind].
  unfold Py.zip_longest. fold (max_height columns).
  rewrite replicate_not_done, (lines_loop_layout columns ws _ 0 Hlen).
  cbn [Py.bind Nat.add]. rewrite seq_S, List.map_app. cbn [List.map Nat.add].
  rewrite final_row_layout; [reflexivity|exact Hlen|].
  apply max_height_ge.
Qed.

Lemma bordered_rows_layout_witness :
  exists ws,
    widths two_columns = Py.Ok ws /\
    length ws = length two_columns /\
    bordered_rows two_columns =
    Py.Ok (List.map cell_top ws
           :: List.map (fun r => List.map (fun '(width, column) =>
                                             cell_at width column r)
                                          (zip ws two_columns))
                       (seq 0 (S (max_height two_columns)))).
Proof.
  apply (bordered_rows_layout two_columns).
  repeat constructor; discriminate.
Defined.

Lemma lookup_S {A} (x : A) (l : list A) i : (x :: l) !! S i = l !! i.
Proof. reflexivity. Qed.

Lemma cell_at_kind width column r :
  is_bottom (cell_at width column r) = (length column =? r)%nat /\
  is_text (cell_at width column r) = (r <? length column)%nat.
Proof.
  unfold cell_at. destruct (column !! r) as [line|] eqn:E.
  - pose proof (lookup_lt_Some _ _ _ E) as Hlt. split.
    + transitivity false; [reflexivity|]. symmetry. apply Nat.eqb_neq. lia.
    + transitivity true; [apply startswith_app|]. symmetry.
      apply Nat.ltb_lt. lia.
  - pose proof (proj1 (lookup_ge_None _ _) E) as Hge.
    assert ((r <? length column)%nat = false) as -> by
      (apply Nat.ltb_ge; lia).
    destruct (length column =? r)%nat;
      [split; [apply startswith_app|reflexivity]|].
    unfold cell_blank, Py.mul.
    destruct (Z.to_nat (width + 2)); split; reflexivity.
Qed.

(** X13: Every column is closed exactly once: in the rows of the block
    (the top border being row 0) the cell of a column is its bottom
    border on the row after its last line and on no other row, and it is
    one of its lines on the rows 1 to its height and on no other row. *)
Theorem bordered_column_closes_once columns c column :
  Forall (fun column => column <> []) columns ->
  columns !! c = Some column ->
  exists rows,
    bordered_rows columns = Py.Ok rows /\
    length rows = (max_height columns + 2)%nat /\
    (exists row cell,
        rows !! S (length column) = Some row /\ row !! c = Some cell /\
        is_bottom cell = true) /\
    forall i row cell,
      rows !! i = Some row -> row !! c = Some cell ->
      (is_bottom cell = true <-> i = S (length column)) /\
      (is_text cell = true <-> (1 <= i <= length column)%nat).
Proof.
  intros Hcols Hc.
  destruct (bordered_rows_layout columns Hcols) as (ws & Hws & Hlen & Hrows).
  eexists. split; [exact Hrows|].
  destruct (lookup_lt_is_Some_2 ws c) as [w Hw].
  { rewrite Hlen. eapply lookup_lt_Some. exact Hc. }
  assert (forall r,
            List.map (fun '(width, column) => cell_at width column r)
                     (zip ws columns) !! c = Some (cell_at w column r))
    as Hcell.
  { intros r. rewrite lookup_map.
    assert (zip ws columns !! c = Some (w, column)) as ->; [|reflexivity].
    apply lookup_zip_with_Some. eauto. }
  assert (length column <= max_height columns)%nat as Hle.
  { apply max_height_ge. apply list_elem_of_In.
    eapply list_elem_of_lookup_2. exact Hc. }
  split; [|split].
  - simpl. rewrite length_map, length_seq. lia.
  - exists (List.map (fun '(width, column0) =>
                        cell_at width column0 (length column))
                     (zip ws columns)), (cell_at w column (length column)).
    split; [|split].
    + rewrite lookup_S, lookup_map.
      rewrite (proj2 (lookup_seq 0 (S (max_height columns)) (length column)
                        (length column))); [reflexivity|lia].
    + apply Hcell.
    + rewrite (proj1 (cell_at_kind w column (length column))).
      apply Nat.eqb_refl.
  - intros [|r] row cell Hrow Hcl.
    + injection Hrow as <-. rewrite lookup_map, Hw in Hcl.
      injection Hcl as <-. split; split; try discriminate; lia.
    + rewrite lookup_S, lookup_map in Hrow.
      destruct (seq 0 (S (max_height columns)) !! r) as [r'|] eqn:Hr;
        [|discriminate Hrow].
      apply lookup_seq in Hr as [-> Hr]. injection Hrow as <-.
      rewrite Hcell in Hcl. injection Hcl as <-.
      destruct (cell_at_kind w column r) as [-> ->]. simpl.
      rewrite Nat.eqb_eq, Nat.ltb_lt. lia.
Qed.

Lemma bordered_column_closes_once_witness :
  exists rows,
    bordered_rows two_columns = Py.Ok rows /\
    length rows = (max_height two_columns + 2)%nat /\
    (exists row cell,
        rows !! S (length [Py.lit "ccc"]) = Some row /\
        row !! 1%nat = Some cell /\ is_bottom cell = true) /\
    forall i row cell,
      rows !! i = Some row -> row !! 1%nat = Some cell ->
      (is_bottom cell = true <-> i = S (length [Py.lit "ccc"])) /\
      (is_text cell = true <-> (1 <= i <= length [Py.lit "ccc"])%nat).
Proof.
  apply (bordered_column_closes_once two_columns 1 [Py.lit "ccc"]).
  - repeat constructor; discriminate.
  - reflexivity.
Defined.

Lemma formats_show_top ascii_border width :
  formats (borders ascii_border) (cell_top width)
          (show_top ascii_border width).
Proof.
  destruct (formats_key ascii_border "TL") as [Fl _]; [simpl; tauto|].
  destruct (formats_key ascii_border "TR") as [Fr _]; [simpl; tauto|].
  destruct (formats_key ascii_border "HZ") as [Fh _]; [simpl; tauto|].
  apply formats_app; [exact Fl|]. apply formats_app; [|exact Fr].
  apply formats_mul. exact Fh.
Qed.

Lemma formats_show_at ascii_border width column r :
  forallb (forallb nonbrace) column = true ->
  formats (borders ascii_border) (cell_at width column r)
          (show_at ascii_border width column r).
Proof.
  intros Hplain.
  destruct (formats_key ascii_border "BL") as [Fl _]; [simpl; tauto|].
  destruct (formats_key ascii_border "BR") as [Fr _]; [simpl; tauto|].
  destruct (formats_key ascii_border "HZ") as [Fh _]; [simpl; tauto|].
  destruct (formats_key ascii_border "VT") as [Fv _]; [simpl; tauto|].
  unfold cell_at, show_at. destruct (column !! r) as [line|] eqn:E.
  - apply formats_app; [exact Fv|]. apply formats_app; [|exact Fv].
    apply formats_plain. rewrite forallb_app. apply andb_true_iff. split.
    + rewrite forallb_forall in Hplain. apply Hplain.
      apply list_elem_of_In. eapply list_elem_of_lookup_2. exact E.
    + now apply forallb_mul_char.
  - destruct (length column =? r)%nat.
    + apply formats_app; [exact Fl|]. apply formats_app; [|exact Fr].
      apply formats_mul. exact Fh.
    + apply formats_plain. now apply forallb_mul_char.
Qed.

(** X14: What [bordered] prints when every column has a line and no line
    contains a brace: the top borders, then on each row, for every
    column, its line left-aligned and padded with spaces to the width of
    the column between two vertical glyphs, its bottom border on the row
    after its last line, and spaces below; cells are 4 spaces apart. *)
Theorem bordered_output columns ascii_border :
  Forall (fun column => column <> []) columns ->
  Forall (fun column => forallb (forallb nonbrace) column = true) columns ->
  exists ws,
    widths columns = Py.Ok ws /\
    bordered columns ascii_border =
    Py.Ok (Py.join [NL]
             (List.map (Py.join sep)
                (List.map (show_top ascii_border) ws
                 :: List.map (fun r =>
                      List.map (fun '(width, column) =>
                                  show_at ascii_border width column r)
                               (zip ws columns))
                      (seq 0 (S (max_height columns)))))).
Proof.
  intros Hcols Hplain.
  destruct (bordered_rows_layout columns Hcols) as (ws & Hws & Hlen & Hrows).
  exists ws. split; [exact Hws|].
  unfold bordered. rewrite Hrows. cbn [Py.bind].
  apply formats_run. apply formats_join.
  { now apply formats_plain. }
  assert (formats (borders ascii_border) sep sep) as Hsep
    by now apply formats_plain.
  cbn [List.map]. constructor.
  - apply formats_join; [exact Hsep|].
    apply Forall2_map_same. intros w _. apply formats_show_top.
  - rewrite !List.map_map. apply Forall2_map_same. intros r _.
    apply formats_join; [exact Hsep|].
    apply Forall2_map_same. intros [w column] Hin.
    apply formats_show_at.
    rewrite List.Forall_forall in Hplain. apply Hplain.
    apply list_elem_of_In. apply list_elem_of_In in Hin.
    eapply elem_of_zip_r. exact Hin.
Qed.

Lemma bordered_output_witness :
  exists ws,
    widths two_columns = Py.Ok ws /\
    bordered two_columns false =
    Py.Ok (Py.join [NL]
             (List.map (Py.join sep)
                (List.map (show_top false) ws
                 :: List.map (fun r =>
                      List.map (fun '(width, column) =>
                                  show_at false width column r)
                               (zip ws two_columns))
                      (seq 0 (S (max_height two_columns)))))).
Proof.
  apply (bordered_output two_columns false).
  - repeat constructor; discriminate.
  - repeat constructor.
Defined.

(** * [humanize_timedelta] *)

Lemma periods_loop_sum ps :
  Forall (fun p => 0 < period_seconds p) ps ->
  forall s, 0 <= s ->
    parts_seconds (periods_loop ps s).1 + (periods_loop ps s).2 = s /\
    0 <= (periods_loop ps s).2 <= s.
Proof.
  induction 1 as [|p ps Hp _ IH]; intros s Hs; [simpl; lia|].
  cbn [periods_loop].
  destruct (period_seconds p <=? s) eqn:E; [|now apply IH].
  pose proof (Z.div_mod s (period_seconds p) ltac:(lia)) as Hdm.
  pose proof (Z.mod_pos_bound s (period_seconds p) Hp) as Hmod.
  destruct (IH (s mod period_seconds p) ltac:(lia)) as [Hsum Hleft].
  destruct (s / period_seconds p =? 0) eqn:F.
  - apply Z.eqb_eq in F. rewrite F in Hdm. split; lia.
  - destruct (periods_loop ps (s mod period_seconds p)) as [parts left].
    cbn [fst snd parts_seconds fold_right] in *.
    rewrite (Z.mul_comm (period_seconds p)) in Hdm. split; lia.
Qed.

Lemma periods_loop_left_zero ps :
  Forall (fun p => 0 < period_seconds p) ps ->
  (exists p, In p ps /\ period_seconds p = 1) ->
  forall s, 0 <= s -> (periods_loop ps s).2 = 0.
Proof.
  induction 1 as [|p ps Hp Hps IH]; intros (q & Hq & Hq1) s Hs;
    [destruct Hq|].
  assert (forall s', 0 <= s' -> s' < period_seconds p ->
            (periods_loop ps s').2 = 0) as Hrest.
  { intros s' Hs' Hlt. destruct Hq as [->|Hq].
    - pose proof (periods_loop_sum ps Hps s' Hs'). lia.
    - apply IH; [now exists q|exact Hs']. }
  cbn [periods_loop].
  destruct (period_seconds p <=? s) eqn:E;
    [|apply Hrest; [exact Hs|now apply Z.leb_gt]].
  pose proof (Z.mod_pos_bound s (period_seconds p) Hp) as Hmod.
  specialize (Hrest (s mod period_seconds p) ltac:(lia) ltac:(lia)).
  destruct (s / period_seconds p =? 0); [exact Hrest|].
  destruct (periods_loop ps (s mod period_seconds p)). exact Hrest.
Qed.

Lemma periods_loop_caps ps :
  Forall (fun p => 0 < period_seconds p) ps ->
  forall s B, 0 <= s < B ->
    Forall (fun part =>
              1 <= part.1 /\
              exists Bp, In (part.2, Bp) (caps B ps) /\
                         part.1 * period_seconds part.2 < Bp)
           (periods_loop ps s).1.
Proof.
  induction 1 as [|p ps Hp _ IH]; intros s B Hs; [constructor|].
  assert (forall s', 0 <= s' < period_seconds p ->
            Forall (fun part =>
                      1 <= part.1 /\
                      exists Bp, In (part.2, Bp) (caps B (p :: ps)) /\
                                 part.1 * period_seconds part.2 < Bp)
                   (periods_loop ps s').1) as Hrest.
  { intros s' Hs'. eapply Forall_impl; [apply (IH s' _ Hs')|].
    intros part (Hv & Bp & Hin & Hlt). split; [exact Hv|].
    exists Bp. split; [now right|exact Hlt]. }
  cbn [periods_loop].
  destruct (period_seconds p <=? s) eqn:E;
    [|apply Hrest; apply Z.leb_gt in E; lia].
  apply Z.leb_le in E.
  pose proof (Z.div_mod s (period_seconds p) ltac:(lia)) as Hdm.
  pose proof (Z.mod_pos_bound s (period_seconds p) Hp) as Hmod.
  pose proof (Z.div_pos s (period_seconds p) ltac:(lia) Hp) as Hdiv.
  specialize (Hrest (s mod period_seconds p) Hmod).
  destruct (s / period_seconds p =? 0) eqn:F; [exact Hrest|].
  apply Z.eqb_neq in F.
  destruct (periods_loop ps (s mod period_seconds p)) as [parts left].
  cbn [fst] in *. constructor; [|exact Hrest].
  cbn [fst snd]. split; [lia|]. exists B. split; [now left|]. nia.
Qed.

Lemma periods_loop_sublist ps s :
  sublist (List.map snd (periods_loop ps s).1) ps.
Proof.
  revert s. induction ps as [|p ps IH]; intros s; [constructor|].
  cbn [periods_loop].
  destruct (period_seconds p <=? s); [|now apply sublist_cons].
  destruct (s / period_seconds p =? 0); [now apply sublist_cons|].
  specialize (IH (s mod period_seconds p)).
  destruct (periods_loop ps (s mod period_seconds p)) as [parts left].
  cbn [fst List.map snd] in *. now apply sublist_skip.
Qed.

Lemma periods_loop_in ps s :
  Forall (fun part => In part.2 ps) (periods_loop ps s).1.
Proof.
  revert s. induction ps as [|p ps IH]; intros s; [constructor|].
  assert (forall s', Forall (fun part => In part.2 (p :: ps))
                            (periods_loop ps s').1) as Hrest.
  { intros s'. eapply Forall_impl; [apply IH|]. intros part H. now right. }
  cbn [periods_loop].
  destruct (period_seconds p <=? s); [|apply Hrest].
  destruct (s / period_seconds p =? 0); [apply Hrest|].
  specialize (Hrest (s mod period_seconds p)).
  destruct (periods_loop ps (s mod period_seconds p)) as [parts left].
  cbn [fst] in *. constructor; [now left|exact Hrest].
Qed.

Lemma periods_loop_small ps s :
  Forall (fun p => s < period_seconds p) ps -> periods_loop ps s = ([], s).
Proof.
  induction 1 as [|p ps Hp _ IH]; [reflexivity|].
  cbn [periods_loop]. apply Z.leb_gt in Hp. now rewrite Hp.
Qed.

Lemma periods_positive : Forall (fun p => 0 < period_seconds p) periods.
Proof. repeat constructor. Qed.

(** X15: Nothing is lost: for [seconds >= 0] the loop over the table
    [periods] leaves no seconds over, and the values it appends, each
    of at least 1 and for a period of the table taken in the order of
    the table, each times the length of its period, add up to
    [seconds]; the result is the strings of these values and periods,
    joined by ", ". *)
Theorem humanize_timedelta_adds_up timedelta seconds :
  0 <= seconds ->
  let parts := (periods_loop periods seconds).1 in
  humanize_timedelta timedelta (Some seconds)
  = Py.Ok (Py.join (Py.lit ", ") (List.map period_string parts)) /\
  (periods_loop periods seconds).2 = 0 /\
  sublist (List.map snd parts) periods /\
  Forall (fun part => 1 <= part.1 /\ In part.2 periods) parts /\
  parts_seconds parts = seconds.
Proof.
  intros Hs parts. subst parts.
  assert ((periods_loop periods seconds).2 = 0) as Hleft.
  { apply (periods_loop_left_zero periods periods_positive); [|exact Hs].
    exists (Py.lit "second", Py.lit "seconds", 1).
    split; [|reflexivity]. simpl. tauto. }
  split; [reflexivity|]. split; [exact Hleft|].
  split; [apply periods_loop_sublist|]. split.
  - apply List.Forall_forall. intros part Hin. split.
    + pose proof (periods_loop_caps periods periods_positive seconds
                    (seconds + 1) ltac:(lia)) as Hcaps.
      rewrite List.Forall_forall in Hcaps. now apply Hcaps.
    + pose proof (periods_loop_in periods seconds) as Hps.
      rewrite List.Forall_forall in Hps. now apply Hps.
  - pose proof (periods_loop_sum periods periods_positive seconds Hs)
      as [H _].
    lia.
Qed.

Lemma humanize_timedelta_adds_up_witness :
  humanize_timedelta None (Some 3661)
  = Py.Ok (Py.lit "1 hour, 1 minute, 1 second") /\
  parts_seconds (periods_loop periods 3661).1 = 3661.
Proof.
  destruct (humanize_timedelta_adds_up None 3661 ltac:(lia))
    as (Hout & _ & _ & _ & Hsum).
  split; [exact Hout|exact Hsum].
Defined.

(** X16: The components come in the order of the table, each period at most
    once and with a value of at least 1; after the years there are at
    most 12 months, 29 days, 23 hours, 59 minutes and 59 seconds. *)
Theorem humanize_timedelta_components timedelta seconds :
  exists parts,
    humanize_timedelta timedelta (Some seconds)
    = Py.Ok (Py.join (Py.lit ", ") (List.map period_string parts)) /\
    sublist (List.map snd parts) periods /\
    Forall (fun part =>
              1 <= part.1 /\
              (part.2 = (Py.lit "year", Py.lit "years", 31536000) \/
               part.2 = (Py.lit "month", Py.lit "months", 2592000)
                 /\ part.1 <= 12 \/
               part.2 = (Py.lit "day", Py.lit "days", 86400)
                 /\ part.1 <= 29 \/
               part.2 = (Py.lit "hour", Py.lit "hours", 3600)
                 /\ part.1 <= 23 \/
               part.2 = (Py.lit "minute", Py.lit "minutes", 60)
                 /\ part.1 <= 59 \/
               part.2 = (Py.lit "second", Py.lit "seconds", 1)
                 /\ part.1 <= 59))
           parts.
Proof.
  exists (periods_loop periods seconds).1. split; [reflexivity|].
  split; [apply periods_loop_sublist|].
  destruct (Z_lt_le_dec seconds 0) as [Hneg|Hpos].
  - assert ((periods_loop periods seconds).1 = []) as ->; [|constructor].
    rewrite periods_loop_small; [reflexivity|].
    repeat constructor; cbn; lia.
  - eapply Forall_impl;
      [apply (periods_loop_caps periods periods_positive seconds
                (seconds + 1)); lia|].
    intros [v p] (Hv & Bp & Hin & Hlt). cbn [fst snd] in *.
    split; [exact Hv|]. cbn in Hin.
    destruct Hin as [Hin|[Hin|[Hin|[Hin|[Hin|[Hin|[]]]]]]];
      injection Hin as <- <-; cbn [period_seconds snd] in Hlt.
    + now left.
    + right; left. split; [reflexivity|lia].
    + right; right; left. split; [reflexivity|lia].
    + right; right; right; left. split; [reflexivity|lia].
    + right; right; right; right; left. split; [reflexivity|lia].
    + right; right; right; right; right. split; [reflexivity|lia].
Qed.

Lemma period_string_not_empty part : period_string part <> [].
Proof.
  destruct part as [v p]. unfold period_string.
  intros H. apply app_eq_nil in H as [_ H]. discriminate H.
Qed.

(** X17: The result is the empty string exactly when [seconds] is less
    than 1, negative values included. *)
Theorem humanize_timedelta_empty timedelta seconds :
  humanize_timedelta timedelta (Some seconds) = Py.Ok [] <-> seconds < 1.
Proof.
  unfold humanize_timedelta. split.
  - intros H.
    destruct (Z_lt_le_dec seconds 1) as [|Hge]; [assumption|exfalso].
    pose proof (periods_loop_sum periods periods_positive seconds
                  ltac:(lia)) as [Hsum _].
    rewrite (periods_loop_left_zero periods periods_positive) in Hsum;
      [| |lia].
    2:{ exists (Py.lit "second", Py.lit "seconds", 1).
        split; [|reflexivity]. simpl. tauto. }
    remember (periods_loop periods seconds).1 as all_parts eqn:Hparts.
    clear Hparts. injection H as H.
    destruct all_parts as [|part parts].
    + simpl in Hsum. lia.
    + pose proof (period_string_not_empty part) as Hne.
      cbn [List.map Py.join] in H.
      destruct (List.map period_string parts).
      * contradiction.
      * apply app_eq_nil in H as [H _]. contradiction.
  - intros Hlt.
    assert ((periods_loop periods seconds).1 = []) as ->; [|reflexivity].
    rewrite periods_loop_small; [reflexivity|].
    repeat constructor; cbn; lia.
Qed.

(** * [quote] *)

Lemma concat_splitlines s : concat (Py.splitlines s) = s.
Proof.
  induction s as [|c s IH]; [reflexivity|].
  cbn [Py.splitlines]. destruct (N.eqb c 13).
  - destruct s as [|c2 s]; [reflexivity|].
    destruct (N.eqb c2 10) eqn:E.
    + apply N.eqb_eq in E. subst c2. cbn in IH. injection IH as IH.
      cbn. now rewrite IH.
    + cbn [concat app]. now rewrite IH.
  - destruct (Py.linebreak c).
    + cbn [concat app]. now rewrite IH.
    + destruct (Py.splitlines s) as [|line lines].
      * simpl in IH. now subst s.
      * cbn [concat app] in *. now rewrite IH.
Qed.

Lemma splitlines_nil s : Py.splitlines s = [] -> s = [].
Proof. intros H. rewrite <- (concat_splitlines s), H. reflexivity. Qed.

Lemma splitlines_newline a b :
  Py.splitlines (a ++ NL :: b) = Py.splitlines (a ++ [NL]) ++ Py.splitlines b.
Proof.
  induction a as [|c a IH]; [reflexivity|].
  cbn [app Py.splitlines]. destruct (N.eqb c 13).
  - destruct a as [|c2 a]; [reflexivity|].
    cbn [app] in *. destruct (N.eqb c2 10) eqn:E.
    + apply N.eqb_eq in E. subst c2. cbn in IH. injection IH as IH.
      now rewrite IH.
    + now rewrite IH.
  - destruct (Py.linebreak c); [now rewrite IH|].
    rewrite IH. destruct (Py.splitlines (a ++ [NL])) as [|line lines] eqn:E.
    + apply splitlines_nil in E. now destruct a.
    + reflexivity.
Qed.

Lemma len_concat_prefixed (prefix : Py.str) (lines : list Py.str) :
  Py.len (concat (List.map (fun line => prefix ++ line) lines))
  = Py.len (concat lines) + Py.len prefix * Py.len lines.
Proof.
  induction lines as [|line lines IH]; [simpl; unfold Py.len; simpl; lia|].
  cbn [List.map concat]. rewrite !len_app, IH, len_cons. lia.
Qed.

(** X18: [quote] only puts "> " in front of every line: the lines of the
    text, concatenated, are the text; the result is longer by two
    characters per line; an empty text is left empty, and any other
    result starts with "> ". *)
Theorem quote_marks_every_line text :
  concat (Py.splitlines text) = text /\
  quote text
  = concat (List.map (fun line => Py.lit "> " ++ line) (Py.splitlines text)) /\
  Py.len (quote text) = Py.len text + 2 * Py.len (Py.splitlines text) /\
  (quote text = [] <-> text = []) /\
  (text <> [] -> Py.startswith (quote text) (Py.lit "> ") = true).
Proof.
  split; [apply concat_splitlines|]. split; [reflexivity|].
  split; [|split].
  - unfold quote, Py.indent. rewrite len_concat_prefixed, concat_splitlines.
    reflexivity.
  - unfold quote, Py.indent. split.
    + intros H. destruct (Py.splitlines text) eqn:E;
        [now apply splitlines_nil|discriminate H].
    + now intros ->.
  - intros Hne. unfold quote, Py.indent.
    destruct (Py.splitlines text) eqn:E;
      [apply splitlines_nil in E; contradiction|].
    cbn [List.map concat]. rewrite <- app_assoc. apply startswith_app.
Qed.

Lemma quote_marks_every_line_witness :
  Py.startswith (quote (Py.lit "a")) (Py.lit "> ") = true.
Proof.
  apply (proj2 (proj2 (proj2 (proj2 (quote_marks_every_line (Py.lit "a")))))).
  discriminate.
Defined.

(** X19: Quoting works line by line: a text cut after a "\n" can be quoted
    piece by piece. *)
Theorem quote_line_by_line a b :
  quote (a ++ NL :: b) = quote (a ++ [NL]) ++ quote b.
Proof.
  unfold quote, Py.indent.
  now rewrite splitlines_newline, List.map_app, concat_app.
Qed.

Lemma humanize_timedelta_empty_witness :
  humanize_timedelta None (Some (-5)) = Py.Ok [].
Proof. apply (proj2 (humanize_timedelta_empty None (-5))). lia. Defined.

(** * The slices of the paginator, for any settings *)

(** X9: Whenever [page_length] exceeds [shorten_by] and there is a delimiter
    (or [priority] is set), the slices the loop takes from the text, that
    is [in_text[:closest_delim]] on every iteration and the remainder at
    the end, are determined by the text, have at most the budget of
    characters each and concatenate to the text; the pages are, in
    order, the slices that are not blank, whole, escaped when asked. *)
Theorem pagify_slices md text delims priority escape_mass_mentions
    shorten_by page_length :
  shorten_by < page_length ->
  priority = true \/ delims <> [] ->
  exists slices,
    cut_into delims priority escape_mass_mentions
      (page_length - shorten_by) text slices /\
    (forall slices',
        cut_into delims priority escape_mass_mentions
          (page_length - shorten_by) text slices' ->
        slices' = slices) /\
    concat slices = text /\
    Forall (fun s => Py.len s <= page_length - shorten_by) slices /\
    forall k,
      pagify md (S (length text) + k) text delims priority
        escape_mass_mentions shorten_by page_length =
      (List.map (page_of md escape_mass_mentions)
                (List.filter (fun s => negb (blank s)) slices),
       Exhausted).
Proof.
  intros Hb Hdom.
  destruct (pagify_loop_cut_into md delims priority escape_mass_mentions
              (page_length - shorten_by) ltac:(lia) Hdom text)
    as (slices & Hcut & Hcat & Hall & Hrun).
  exists slices. split; [exact Hcut|].
  split; [now apply cut_into_unique|].
  split; [exact Hcat|]. split; [exact Hall|].
  intros k. unfold pagify. apply Hrun. lia.
Qed.

Lemma pagify_slices_witness :
  exists slices,
    cut_into [[SPACE]] true false (4 - 0) (Py.lit "one two") slices /\
    (forall slices',
        cut_into [[SPACE]] true false (4 - 0) (Py.lit "one two") slices' ->
        slices' = slices) /\
    concat slices = Py.lit "one two" /\
    Forall (fun s => Py.len s <= 4 - 0) slices /\
    forall k,
      pagify md0 (S (length (Py.lit "one two")) + k) (Py.lit "one two")
        [[SPACE]] true false 0 4 =
      (List.map (page_of md0 false)
                (List.filter (fun s => negb (blank s)) slices),
       Exhausted).
Proof.
  apply (pagify_slices md0 (Py.lit "one two") [[SPACE]] true false 0 4).
  - lia.
  - now left.
Defined.
